(** * Portfolio API: identifier translation, serialization and admin handlers

    A shallow embedding of [src/main.py] and [src/schemas.py].  Documents are
    Python dicts, modelled as finite maps from field names to JSON-like
    values; the document store behind the global [db] is threaded explicitly
    through every handler, together with the list of store calls a handler
    has issued. *)

From Stdlib Require Import ZArith NArith List String Ascii Bool Lia.
From stdpp Require Import base option list gmap strings fin_maps pretty.

Open Scope string_scope.
Set Warnings "-register-all".

(** ** Identifier codec ([bson.ObjectId]) *)

(** [ObjectId] comes from the [bson] library.  What [main.py] uses of it is
    the constructor on a string, [is_valid] and [str].  The constructor takes
    a string of twenty-four characters that [bytes.fromhex] can parse: pairs
    of hexadecimal digits, with ASCII whitespace skipped between pairs. *)

Module ObjectId.

(** An identifier holds a byte string: twelve bytes in every identifier the
    store hands out, fewer when the constructor was given a string with
    whitespace in it.  Twelve bytes are kept as the number they spell in
    big-endian order, which is below [2 ^ 96]; [n < 12] bytes are kept as
    [(n + 1) * 2 ^ 96] plus the number they spell, so that byte strings of
    different lengths stay different identifiers. *)
Definition t := N.

Definition hex_val (c : ascii) : option N :=
  let n := N_of_ascii c in
  if (48 <=? n)%N && (n <=? 57)%N then Some (n - 48)%N
  else if (97 <=? n)%N && (n <=? 102)%N then Some (n - 87)%N
  else if (65 <=? n)%N && (n <=? 70)%N then Some (n - 55)%N
  else None.

(** ASCII whitespace: space, tab, line feed, vertical tab, form feed and
    carriage return. *)
Definition is_space (c : ascii) : bool :=
  let n := N_of_ascii c in
  (n =? 32)%N || ((9 <=? n)%N && (n <=? 13)%N).

(** [bytes.fromhex(s)]: whitespace is skipped where a byte may start; the
    two digits of a byte stand next to each other. *)
Fixpoint fromhex (s : string) : option (list N) :=
  match s with
  | EmptyString => Some []
  | String c s' =>
      if is_space c then fromhex s'
      else
        match hex_val c, s' with
        | Some top, String c' s'' =>
            match hex_val c' with
            | Some bot => cons (16 * top + bot)%N <$> fromhex s''
            | None => None
            end
        | _, _ => None
        end
  end.

Definition big_endian (bytes : list N) : N :=
  fold_left (λ acc b, 256 * acc + b)%N bytes 0%N.

(** The identifier holding the given bytes. *)
Definition of_bytes (bytes : list N) : t :=
  if (length bytes =? 12)%nat then big_endian bytes
  else ((N.of_nat (length bytes) + 1) * 2 ^ 96 + big_endian bytes)%N.

(** [ObjectId(s)] for a [str] argument: the length is tested, then the
    string is handed to [bytes.fromhex]; anything that fails either raises
    [InvalidId]. *)
Definition of_str (s : string) : option t :=
  if (String.length s =? 24)%nat then of_bytes <$> fromhex s else None.

(** [ObjectId.is_valid(s)]: the constructor does not raise. *)
Definition is_valid (s : string) : bool :=
  match of_str s with Some _ => true | None => false end.

Fixpoint all_hex (s : string) : bool :=
  match s with
  | EmptyString => true
  | String c s' =>
      match hex_val c with Some _ => all_hex s' | None => false end
  end.

(** The syntactic check as section 4.1 of the spec words it: the right
    length and hexadecimal characters only. *)
Definition spec_is_valid (s : string) : bool :=
  (String.length s =? 24)%nat && all_hex s.

Definition hex_digit (d : N) : ascii :=
  if (d <? 10)%N then ascii_of_N (48 + d) else ascii_of_N (87 + d).

Fixpoint hex (digits : nat) (n : N) (tail : string) : string :=
  match digits with
  | O => tail
  | S k => hex k (n / 16)%N (String (hex_digit (n mod 16)%N) tail)
  end.

(** [str(oid)]: two lower-case hexadecimal characters for each byte held,
    twenty-four for an identifier of twelve bytes. *)
Definition str (o : t) : string :=
  if (o <? 2 ^ 96)%N then hex 24 o ""
  else hex (2 * N.to_nat (o / 2 ^ 96 - 1)) (o mod 2 ^ 96) "".

End ObjectId.

(** ** Values and documents *)

(** What a field of a stored document or of a response can hold. *)
Inductive value : Type :=
  | VNull
  | VBool (b : bool)
  | VInt (z : Z)
  | VStr (s : string)
  | VOid (o : ObjectId.t)
  | VList (l : list value)
  | VDict (d : gmap string value).

(** A document is a Python [dict] keyed by field name. *)
Abbreviation document := (gmap string value).

Definition str_list (l : list string) : value := VList (VStr <$> l).

(** ** Serialization *)

(** [to_serializable(doc)].  The argument is [None] when a lookup found
    nothing; [not doc] holds for [None] and for the empty dict, which are
    handed back as they are. *)
Definition to_serializable (doc : option document) : option document :=
  match doc with
  | None => None
  | Some d =>
      if decide (d = ∅) then Some d
      else
        match d !! "_id" with
        | Some (VOid o) => Some (<["id" := VStr (ObjectId.str o)]> (delete "_id" d))
        | _ => Some d
        end
  end.

(** The JSON body a handler returns for an optional dict. *)
Definition json_of (doc : option document) : value :=
  match doc with
  | Some d => VDict d
  | None => VNull
  end.

(** ** The document store *)

(** A call issued to the store; every operation below records the call it
    makes, so that "the store was not touched" can be said of a handler. *)
Inductive store_call : Type :=
  | CallFind (coll : string) (limit : option nat)
  | CallFindOne (coll : string) (oid : ObjectId.t)
  | CallInsertOne (coll : string) (doc : document)
  | CallUpdateOne (coll : string) (oid : ObjectId.t) (fields : document)
  | CallDeleteOne (coll : string) (oid : ObjectId.t)
  | CallDeleteMany (coll : string)
  | CallListCollectionNames.

(** The database object behind the global [db].  Each collection keeps its
    documents in insertion order; [next_oid] is the identifier the store
    assigns to the next inserted document; [fault] is the message of the
    error every operation raises while the server cannot be reached. *)
Record Database : Type := {
  name : string;
  fault : option string;
  collections : gmap string (list document);
  next_oid : ObjectId.t;
  calls : list store_call
}.

(** The global [db] is [None] when no connection was configured. *)
Abbreviation Db := (option Database).

Definition collection (st : Database) (coll : string) : list document :=
  default [] (collections st !! coll).

Definition set_collection (coll : string) (docs : list document) (st : Database)
  : Database :=
  {| name := name st; fault := fault st;
     collections := <[coll := docs]> (collections st);
     next_oid := next_oid st; calls := calls st |}.

Definition record_call (c : store_call) (st : Database) : Database :=
  {| name := name st; fault := fault st; collections := collections st;
     next_oid := next_oid st; calls := calls st ++ [c] |}.

Definition bump_oid (st : Database) : Database :=
  {| name := name st; fault := fault st; collections := collections st;
     next_oid := N.succ (next_oid st); calls := calls st |}.

(** The native identifier of a document, when it carries one. *)
Definition doc_oid (d : document) : option ObjectId.t :=
  match d !! "_id" with
  | Some (VOid o) => Some o
  | _ => None
  end.

(** The filter [{"_id": oid}]. *)
Definition has_oid (oid : ObjectId.t) (d : document) : bool :=
  match doc_oid d with
  | Some o => N.eqb o oid
  | None => false
  end.

Fixpoint first_match (oid : ObjectId.t) (docs : list document) : option document :=
  match docs with
  | [] => None
  | d :: rest => if has_oid oid d then Some d else first_match oid rest
  end.

(** [{"$set": fields}] applied to the first document matching the filter. *)
Fixpoint set_first (oid : ObjectId.t) (fields : document) (docs : list document)
  : list document :=
  match docs with
  | [] => []
  | d :: rest =>
      if has_oid oid d then (fields ∪ d) :: rest
      else d :: set_first oid fields rest
  end.

(** Removal of the first document matching the filter, with the count. *)
Fixpoint remove_first (oid : ObjectId.t) (docs : list document)
  : nat * list document :=
  match docs with
  | [] => (0%nat, [])
  | d :: rest =>
      if has_oid oid d then (1%nat, rest)
      else let '(n, rest') := remove_first oid rest in (n, d :: rest')
  end.

(** ** Exceptions and the handler monad *)

Inductive exn : Type :=
  | HTTPException (status_code : Z) (detail : string)
  | Exception (msg : string).

(** A computation reads and updates the global [db] and either raises or
    returns. *)
Definition M (A : Type) : Type := Db → (exn + A) * Db.

Definition ret {A} (a : A) : M A := λ db, (inr a, db).

Definition raise {A} (e : exn) : M A := λ db, (inl e, db).

Definition bind {A B} (m : M A) (k : A → M B) : M B :=
  λ db, match m db with
        | (inr a, db') => k a db'
        | (inl e, db') => (inl e, db')
        end.

(** [try: m except e: h e]; the effects of [m] up to the raise are kept. *)
Definition try_except {A} (m : M A) (h : exn → M A) : M A :=
  λ db, match m db with
        | (inr a, db') => (inr a, db')
        | (inl e, db') => h e db'
        end.

Declare Scope handler_scope.
Delimit Scope handler_scope with M.
Notation "x <- m ;; k" := (bind m (λ x, k))
  (at level 100, m at next level, right associativity) : handler_scope.
Notation "m ;; k" := (bind m (λ _, k))
  (at level 100, right associativity) : handler_scope.
Open Scope handler_scope.

(** Access to a collection through [db[coll]]: subscripting [None] raises
    [TypeError]; an unreachable server makes the operation itself raise. *)
Definition with_collection {A} (c : store_call)
    (op : Database → A * Database) : M A :=
  λ db, match db with
        | None => (inl (Exception "'NoneType' object is not subscriptable"), None)
        | Some st =>
            let st1 := record_call c st in
            match fault st with
            | Some msg => (inl (Exception msg), Some st1)
            | None => let '(a, st2) := op st1 in (inr a, Some st2)
            end
        end.

(** [db[coll].find_one({"_id": oid})] *)
Definition find_one (coll : string) (oid : ObjectId.t) : M (option document) :=
  with_collection (CallFindOne coll oid)
    (λ st, (first_match oid (collection st coll), st)).

(** [db[coll].update_one({"_id": oid}, {"$set": fields})] *)
Definition update_one (coll : string) (oid : ObjectId.t) (fields : document)
  : M unit :=
  with_collection (CallUpdateOne coll oid fields)
    (λ st, (tt, set_collection coll (set_first oid fields (collection st coll)) st)).

(** [db[coll].delete_one({"_id": oid})], returning [deleted_count]. *)
Definition delete_one (coll : string) (oid : ObjectId.t) : M nat :=
  with_collection (CallDeleteOne coll oid)
    (λ st, let '(n, docs) := remove_first oid (collection st coll) in
           (n, set_collection coll docs st)).

(** [db[coll].delete_many({})] *)
Definition delete_many (coll : string) : M unit :=
  with_collection (CallDeleteMany coll)
    (λ st, (tt, set_collection coll [] st)).

(** [db.list_collection_names()] *)
Definition list_collection_names : M (list string) :=
  with_collection CallListCollectionNames
    (λ st, (fst <$> map_to_list (collections st), st)).

(** [db[coll]]: the collection handle, or [TypeError] when [db] is [None]. *)
Definition db_coll (coll : string) : M string :=
  λ db, match db with
        | None => (inl (Exception "'NoneType' object is not subscriptable"), None)
        | Some st => (inr coll, Some st)
        end.

(** [ObjectId(s)], raising [InvalidId] on a malformed string. *)
Definition ObjectId_new (s : string) : M ObjectId.t :=
  match ObjectId.of_str s with
  | Some o => ret o
  | None =>
      raise (Exception ("'" ++ s ++ "' is not a valid ObjectId, it must be a "
                        ++ "12-byte input or a 24-character hex string"))
  end.

(** [str(e)] *)
Definition str_exn (e : exn) : string :=
  match e with
  | Exception msg => msg
  | HTTPException code detail => pretty code ++ ": " ++ detail
  end.

(** [except Exception as e: raise HTTPException(status_code=500, detail=str(e))] *)
Definition as_500 {A} (e : exn) : M A := raise (HTTPException 500 (str_exn e)).

(** [except HTTPException: raise] followed by the clause above. *)
Definition reraise_or_500 {A} (e : exn) : M A :=
  match e with
  | HTTPException _ _ => raise e
  | Exception _ => as_500 e
  end.

(** ** The [database] module *)

(** Modelled from the spec: [database.create_document] is imported by
    [main.py] but is not among the sources.  Section 4.2 gives
    "insert(collection, document) -> native_id persists a new document and
    returns its assigned identifier": the dumped payload is stored under a
    fresh native identifier, at the end of the collection. *)
Definition create_document (coll : string) (data : document) : M ObjectId.t :=
  with_collection (CallInsertOne coll data)
    (λ st, let oid := next_oid st in
           (oid, bump_oid (set_collection coll
                             (collection st coll ++ [<["_id" := VOid oid]> data]) st))).

(** Modelled from the spec: [database.get_documents] is imported by
    [main.py] but is not among the sources.  Section 4.2 gives
    "find(collection, filter, limit=None)" returning the matching documents
    in insertion order, "truncated to limit if given"; every call in
    [main.py] passes the empty filter. *)
Definition get_documents (coll : string) (limit : option nat) : M (list document) :=
  with_collection (CallFind coll limit)
    (λ st, (match limit with
            | Some n => take n (collection st coll)
            | None => collection st coll
            end, st)).

(** ** Entity schemas ([schemas.py]) and the admin request models *)

Definition opt_str (o : option string) : value := from_option VStr VNull o.

Module Settings.

Record t : Type := {
  name : string;
  role : string;
  headline : string;
  about : string;
  location : option string;
  avatar_url : option string;
  email : option string;
  socials : option (gmap string value)
}.

(** [payload.model_dump()] *)
Definition model_dump (p : t) : document :=
  <["name" := VStr (name p)]>
  (<["role" := VStr (role p)]>
  (<["headline" := VStr (headline p)]>
  (<["about" := VStr (about p)]>
  (<["location" := opt_str (location p)]>
  (<["avatar_url" := opt_str (avatar_url p)]>
  (<["email" := opt_str (email p)]>
  (<["socials" := from_option VDict VNull (socials p)]> ∅))))))).

End Settings.

Module Project.

Record t : Type := {
  title : string;
  description : string;
  tags : list string;
  image_url : option string;
  live_url : option string;
  repo_url : option string
}.

Definition model_dump (p : t) : document :=
  <["title" := VStr (title p)]>
  (<["description" := VStr (description p)]>
  (<["tags" := str_list (tags p)]>
  (<["image_url" := opt_str (image_url p)]>
  (<["live_url" := opt_str (live_url p)]>
  (<["repo_url" := opt_str (repo_url p)]> ∅))))).

End Project.

Module ProjectUpdate.

Record t : Type := {
  title : option string;
  description : option string;
  tags : option (list string);
  image_url : option string;
  live_url : option string;
  repo_url : option string
}.

Definition model_dump (p : t) : document :=
  <["title" := opt_str (title p)]>
  (<["description" := opt_str (description p)]>
  (<["tags" := from_option str_list VNull (tags p)]>
  (<["image_url" := opt_str (image_url p)]>
  (<["live_url" := opt_str (live_url p)]>
  (<["repo_url" := opt_str (repo_url p)]> ∅))))).

End ProjectUpdate.

(** [v is not None] *)
Definition is_not_None (v : value) : bool :=
  match v with
  | VNull => false
  | _ => true
  end.

(** [{k: v for k, v in d.items() if v is not None}] *)
Definition drop_None (d : document) : document :=
  filter (λ kv, is_not_None kv.2 = true) d.

(** [found.get(key)]: [AttributeError] on [None], [None] for a missing key. *)
Definition get_attr (found : option document) (key : string) : M value :=
  match found with
  | None => raise (Exception "'NoneType' object has no attribute 'get'")
  | Some d => ret (default VNull (d !! key))
  end.

(** ** Endpoint handlers ([main.py]) *)

Definition read_root : M value :=
  ret (VDict {["message" := VStr "Portfolio API running"]}).

Definition get_public_settings : M value :=
  try_except
    (docs <- get_documents "settings" (Some 1%nat) ;;
     match docs with
     | d :: _ => ret (json_of (to_serializable (Some d)))
     | [] => ret (VDict ∅)
     end)
    as_500.

Definition serialize_all (docs : list document) : value :=
  VList ((λ d, json_of (to_serializable (Some d))) <$> docs).

Definition list_public_projects : M value :=
  try_except
    (docs <- get_documents "project" None ;;
     ret (serialize_all docs))
    as_500.

Definition upsert_settings (payload : Settings.t) : M value :=
  try_except
    (λ db,
       match db with
       | None => raise (Exception "Database not available") db
       | Some _ =>
           (c <- db_coll "settings" ;;
            delete_many c ;;
            inserted_id <- create_document "settings" (Settings.model_dump payload) ;;
            c <- db_coll "settings" ;;
            doc <- find_one c inserted_id ;;
            ret (json_of (to_serializable doc))) db
       end)
    as_500.

Definition create_project (payload : Project.t) : M value :=
  try_except
    (inserted_id <- create_document "project" (Project.model_dump payload) ;;
     c <- db_coll "project" ;;
     doc <- find_one c inserted_id ;;
     ret (json_of (to_serializable doc)))
    as_500.

Definition list_projects_admin : M value :=
  try_except
    (docs <- get_documents "project" None ;;
     ret (serialize_all docs))
    as_500.

(** The dict built on line 117 of [main.py]. *)
Definition update_fields (payload : ProjectUpdate.t) : document :=
  drop_None (ProjectUpdate.model_dump payload).

Definition update_project (project_id : string) (payload : ProjectUpdate.t)
  : M value :=
  try_except
    (if negb (ObjectId.is_valid project_id)
     then raise (HTTPException 400 "Invalid project id")
     else
       let data := update_fields payload in
       if decide (data = ∅) then ret (VDict {["updated" := VBool false]})
       else
         c <- db_coll "project" ;;
         oid <- ObjectId_new project_id ;;
         found <- find_one c oid ;;
         updated_at <- get_attr found "updated_at" ;;
         let data := <["updated_at" := updated_at]> data in
         c <- db_coll "project" ;;
         oid <- ObjectId_new project_id ;;
         update_one c oid data ;;
         c <- db_coll "project" ;;
         oid <- ObjectId_new project_id ;;
         doc <- find_one c oid ;;
         ret (json_of (to_serializable doc)))
    reraise_or_500.

Definition delete_project (project_id : string) : M value :=
  try_except
    (if negb (ObjectId.is_valid project_id)
     then raise (HTTPException 400 "Invalid project id")
     else
       c <- db_coll "project" ;;
       oid <- ObjectId_new project_id ;;
       deleted_count <- delete_one c oid ;;
       ret (VDict {["deleted" := VBool (deleted_count =? 1)%nat]}))
    reraise_or_500.

(** [os.getenv(key)] is truthy: the variable is there and is not empty. *)
Definition is_set (environ : gmap string string) (key : string) : bool :=
  match environ !! key with
  | Some v => negb (String.eqb v "")
  | None => false
  end.

Definition set_indicator (b : bool) : value :=
  if b then VStr "✅ Set" else VStr "❌ Not Set".

(** [str(e)[:50]] (messages are taken to be ASCII). *)
Definition str50 (e : exn) : string := substring 0 50 (str_exn e).

Definition initial_response : document :=
  <["backend" := VStr "✅ Running"]>
  (<["database" := VStr "❌ Not Available"]>
  (<["database_url" := VNull]>
  (<["database_name" := VNull]>
  (<["connection_status" := VStr "Not Connected"]>
  (<["collections" := VList []]> ∅))))).

(** The [try] block of [test_database].  The response dict is updated in
    place; the only statement that can raise sits in the inner [try], so the
    outer handler never sees a partly updated dict.  A database object
    always has the attribute [name], which [hasattr] asks for. *)
Definition probe_database (response : document) : M document :=
  try_except
    (λ db,
       match db with
       | Some st =>
           let response := <["database" := VStr "✅ Available"]> response in
           let response := <["database_url" := VStr "✅ Configured"]> response in
           let response := <["database_name" := VStr (name st)]> response in
           let response := <["connection_status" := VStr "Connected"]> response in
           try_except
             (collections <- list_collection_names ;;
              let response :=
                <["collections" := str_list (take 10 collections)]> response in
              ret (<["database" := VStr "✅ Connected & Working"]> response))
             (λ e, ret (<["database" :=
                           VStr ("⚠️  Connected but Error: " ++ str50 e)]> response))
             db
       | None =>
           ret (<["database" := VStr "⚠️  Available but not initialized"]> response) db
       end)
    (λ e, ret (<["database" := VStr ("❌ Error: " ++ str50 e)]> response)).

Definition test_database (environ : gmap string string) : M value :=
  response <- probe_database initial_response ;;
  let response :=
    <["database_url" := set_indicator (is_set environ "DATABASE_URL")]> response in
  let response :=
    <["database_name" := set_indicator (is_set environ "DATABASE_NAME")]> response in
  ret (VDict response).

(** ** What the framework sends *)

Record response : Type := { status : Z; body : value }.

(** What the framework makes of the outcome of a route function, before
    it encodes the body: a returned value goes out with status 200, an
    [HTTPException] with its own status and [{"detail": ...}]; anything else
    a route function lets escape is the framework's bare 500.  Encoding the
    body is the step after this one, [deliver] below. *)
Definition respond (r : exn + value) : response :=
  match r with
  | inr v => {| status := 200; body := v |}
  | inl (HTTPException code detail) =>
      {| status := code; body := VDict {["detail" := VStr detail]} |}
  | inl (Exception _) => {| status := 500; body := VStr "Internal Server Error" |}
  end.

Definition endpoint (h : M value) : Db → response * Db :=
  λ db, let '(r, db') := h db in (respond r, db').

Section RequestValidation.

(** The shape [HttpUrl] accepts, and the error list the framework puts in
    the body of a rejected request, are left open. *)
Variable http_url : string → bool.
Variable validation_errors : value → value.

(** A required [str] field. *)
Definition required_str (body : document) (key : string) : option string :=
  match body !! key with
  | Some (VStr s) => Some s
  | _ => None
  end.

(** An [Optional[str]] field with default [None]. *)
Definition optional_str (body : document) (key : string)
  : option (option string) :=
  match body !! key with
  | None | Some VNull => Some None
  | Some (VStr s) => Some (Some s)
  | Some _ => None
  end.

(** An [Optional[HttpUrl]] field with default [None]. *)
Definition optional_url (body : document) (key : string)
  : option (option string) :=
  match body !! key with
  | None | Some VNull => Some None
  | Some (VStr s) => if http_url s then Some (Some s) else None
  | Some _ => None
  end.

(** An [Optional[dict]] field whose default is the empty dict. *)
Definition optional_dict (body : document) (key : string)
  : option (option (gmap string value)) :=
  match body !! key with
  | None => Some (Some ∅)
  | Some VNull => Some None
  | Some (VDict d) => Some (Some d)
  | Some _ => None
  end.

Definition as_str (v : value) : option string :=
  match v with
  | VStr s => Some s
  | _ => None
  end.

(** A [List[str]] value. *)
Definition as_str_list (v : value) : option (list string) :=
  match v with
  | VList l => mapM as_str l
  | _ => None
  end.

(** Validation of a JSON body against [Settings] (and [SettingsIn]). *)
Definition validate_settings (json : value) : option Settings.t :=
  match json with
  | VDict b =>
      name ← required_str b "name";
      role ← required_str b "role";
      headline ← required_str b "headline";
      about ← required_str b "about";
      location ← optional_str b "location";
      avatar_url ← optional_url b "avatar_url";
      email ← optional_str b "email";
      socials ← optional_dict b "socials";
      Some {| Settings.name := name; Settings.role := role;
              Settings.headline := headline; Settings.about := about;
              Settings.location := location; Settings.avatar_url := avatar_url;
              Settings.email := email; Settings.socials := socials |}
  | _ => None
  end.

(** Validation of a JSON body against [Project] (and [ProjectIn]). *)
Definition validate_project (json : value) : option Project.t :=
  match json with
  | VDict b =>
      title ← required_str b "title";
      description ← required_str b "description";
      tags ← match b !! "tags" with
             | None => Some []
             | Some v => as_str_list v
             end;
      image_url ← optional_url b "image_url";
      live_url ← optional_url b "live_url";
      repo_url ← optional_url b "repo_url";
      Some {| Project.title := title; Project.description := description;
              Project.tags := tags; Project.image_url := image_url;
              Project.live_url := live_url; Project.repo_url := repo_url |}
  | _ => None
  end.

(** A route function with a body parameter is entered only with a body that
    passed validation against the parameter's model; a rejected body is
    answered by the framework itself, with status 422. *)
Definition with_body {P} (validate : value → option P) (h : P → M value)
    (json : value) : Db → response * Db :=
  match validate json with
  | Some payload => endpoint (h payload)
  | None =>
      λ db, ({| status := 422;
                body := VDict {["detail" := validation_errors json]} |}, db)
  end.

(** [POST /api/admin/settings] *)
Definition post_admin_settings : value → Db → response * Db :=
  with_body validate_settings upsert_settings.

(** [POST /api/admin/projects] *)
Definition post_admin_projects : value → Db → response * Db :=
  with_body validate_project create_project.

End RequestValidation.

(** [ProjectUpdate()] as built from the body [{}]: every field at its
    default, [None]. *)
Definition no_fields : ProjectUpdate.t :=
  {| ProjectUpdate.title := None; ProjectUpdate.description := None;
     ProjectUpdate.tags := None; ProjectUpdate.image_url := None;
     ProjectUpdate.live_url := None; ProjectUpdate.repo_url := None |}.

Definition fresh_database (n : string) : Database :=
  {| name := n; fault := None; collections := ∅; next_oid := 0%N; calls := [] |}.

Definition error_response (code : Z) (detail : string) : response :=
  {| status := code; body := VDict {["detail" := VStr detail]} |}.

Definition ok_response (v : value) : response := {| status := 200; body := v |}.

(** The dict handed to [$set] on line 121 of [main.py] when the read on
    line 120 found [doc]. *)
Definition applied_fields (payload : ProjectUpdate.t) (doc : document) : document :=
  <["updated_at" := default VNull (doc !! "updated_at")]> (update_fields payload).

(** A document as a client may see it: no native identifier field, and a
    string under [id]. *)
Definition public_document (d : document) : Prop :=
  d !! "_id" = None ∧ ∃ o, d !! "id" = Some (VStr (ObjectId.str o)).

(** A response body that is one such document, or a list of them. *)
Definition public_body (v : value) : Prop :=
  ∃ d, v = VDict d ∧ public_document d.

Definition public_list (v : value) : Prop :=
  ∃ ds, v = VList (VDict <$> ds) ∧ Forall public_document ds.

(** A stored document whose [_id] holds a native identifier. *)
Definition native (d : document) : Prop := is_Some (doc_oid d).

(** The store keeps native identifiers unique within a collection. *)
Definition unique_ids (docs : list document) : Prop := NoDup (omap doc_oid docs).

(** A small database to run the handlers on: one project, no settings. *)
Definition sample_project : document :=
  <["_id" := VOid 7%N]>
  (<["title" := VStr "Old"]>
  (<["description" := VStr "First project"]>
  (<["tags" := str_list ["rocq"]]>
  (<["updated_at" := VInt 1700000000]> ∅)))).

Definition sample_database : Database :=
  {| name := "portfolio"; fault := None;
     collections := {["project" := [sample_project]]};
     next_oid := 8%N; calls := [] |}.

Definition sample_update : ProjectUpdate.t :=
  {| ProjectUpdate.title := Some ""; ProjectUpdate.description := None;
     ProjectUpdate.tags := Some []; ProjectUpdate.image_url := None;
     ProjectUpdate.live_url := None; ProjectUpdate.repo_url := None |}.



Definition sample_settings : Settings.t :=
  {| Settings.name := "Ada"; Settings.role := "Engineer";
     Settings.headline := "Hello"; Settings.about := "About";
     Settings.location := None; Settings.avatar_url := None;
     Settings.email := Some "ada@example.org"; Settings.socials := Some ∅ |}.

(** ** The partial-update body and the routing table *)

(** An [Optional[List[str]]] field with default [None]. *)
Definition optional_str_list (body : document) (key : string)
  : option (option (list string)) :=
  match body !! key with
  | None | Some VNull => Some None
  | Some v => Some <$> as_str_list v
  end.

(** Validation of a JSON body against [ProjectUpdate]: every field is
    optional, and the three URL fields are plain [Optional[str]] here. *)
Definition validate_project_update (json : value) : option ProjectUpdate.t :=
  match json with
  | VDict b =>
      title ← optional_str b "title";
      description ← optional_str b "description";
      tags ← optional_str_list b "tags";
      image_url ← optional_str b "image_url";
      live_url ← optional_str b "live_url";
      repo_url ← optional_str b "repo_url";
      Some {| ProjectUpdate.title := title;
              ProjectUpdate.description := description;
              ProjectUpdate.tags := tags; ProjectUpdate.image_url := image_url;
              ProjectUpdate.live_url := live_url;
              ProjectUpdate.repo_url := repo_url |}
  | _ => None
  end.

(** [PUT /api/admin/projects/{project_id}] *)
Definition put_admin_projects (validation_errors : value → value)
    (project_id : string) : value → Db → response * Db :=
  with_body validation_errors validate_project_update (update_project project_id).

(** The routes registered on [app], each with what its function takes once
    the framework has validated the request. *)
Inductive request : Type :=
  | GetRoot
  | GetPublicSettings
  | GetPublicProjects
  | PostAdminSettings (payload : Settings.t)
  | PostAdminProjects (payload : Project.t)
  | GetAdminProjects
  | PutAdminProject (project_id : string) (payload : ProjectUpdate.t)
  | DeleteAdminProject (project_id : string)
  | GetTest (environ : gmap string string).

Definition handler (r : request) : M value :=
  match r with
  | GetRoot => read_root
  | GetPublicSettings => get_public_settings
  | GetPublicProjects => list_public_projects
  | PostAdminSettings payload => upsert_settings payload
  | PostAdminProjects payload => create_project payload
  | GetAdminProjects => list_projects_admin
  | PutAdminProject project_id payload => update_project project_id payload
  | DeleteAdminProject project_id => delete_project project_id
  | GetTest environ => test_database environ
  end.

Definition serve (r : request) : Db → response * Db := endpoint (handler r).

(** The database after a sequence of requests served one after another. *)
Fixpoint serve_all (rs : list request) (db : Db) : Db :=
  match rs with
  | [] => db
  | r :: rest => serve_all rest (serve r db).2
  end.

(** The requests that only read. *)
Definition is_read (r : request) : bool :=
  match r with
  | GetRoot | GetPublicSettings | GetPublicProjects | GetAdminProjects
  | GetTest _ => true
  | _ => false
  end.

(** ** Invariants of the store *)

(** Within a collection every document carries a native identifier, no
    identifier occurs twice, and all of them were handed out already. *)
Definition wf_docs (next : ObjectId.t) (docs : list document) : Prop :=
  Forall native docs
  ∧ unique_ids docs
  ∧ Forall (λ o, (o < next)%N) (omap doc_oid docs).

Definition consistent (st : Database) : Prop :=
  ∀ coll, wf_docs (next_oid st) (collection st coll).

(** A reachable, consistent database with at most one settings document. *)
Definition healthy (db : Db) : Prop :=
  ∃ st, db = Some st
        ∧ fault st = None
        ∧ consistent st
        ∧ (length (collection st "settings") ≤ 1)%nat.

(** The documents and the allocator are those of [st0]. *)
Definition same_data (st0 : Database) (db : Db) : Prop :=
  ∃ st, db = Some st
        ∧ collections st = collections st0
        ∧ next_oid st = next_oid st0
        ∧ fault st = fault st0
        ∧ name st = name st0.

(** A computation that leaves an invariant of [db] in place, whether it
    returns or raises. *)
Definition keeps {A} (I : Db → Prop) (m : M A) : Prop :=
  ∀ db, I db → I (m db).2.

(** A computation that raises nothing but plain exceptions. *)
Definition plain {A} (m : M A) : Prop :=
  ∀ db e db', m db = (inl e, db') → ∃ msg, e = Exception msg.

Definition sample_new_project : Project.t :=
  {| Project.title := "X"; Project.description := "Y"; Project.tags := ["a"; "b"];
     Project.image_url := None; Project.live_url := None; Project.repo_url := None |}.

(** Some character of the string is neither a hexadecimal digit nor ASCII
    whitespace. *)
Fixpoint has_foreign (s : string) : bool :=
  match s with
  | EmptyString => false
  | String c s' =>
      match ObjectId.hex_val c with
      | Some _ => has_foreign s'
      | None => negb (ObjectId.is_space c) || has_foreign s'
      end
  end.

(** A database holding a project that refers to another document by its
    native identifier. *)
Definition linked_project : document :=
  <["_id" := VOid 3%N]> (<["title" := VStr "Fork"]> (<["parent" := VOid 2%N]> ∅)).

Definition linked_database : Database :=
  {| name := "portfolio"; fault := None;
     collections := {["project" := [linked_project]]};
     next_oid := 4%N; calls := [] |}.

(** ** Encoding the answer *)

(** A value the framework can encode as JSON: anything that holds no
    [ObjectId], at any depth. *)
Fixpoint jsonable (v : value) : bool :=
  match v with
  | VOid _ => false
  | VList l => forallb jsonable l
  | VDict d => map_fold (λ _ x rest, jsonable x && rest) true d
  | _ => true
  end.

Definition internal_server_error : response :=
  {| status := 500; body := VStr "Internal Server Error" |}.

(** The answer that leaves the server: a body the framework cannot encode
    makes it answer its bare 500 in place of what the route function
    returned. *)
Definition deliver (a : response) : response :=
  if jsonable (body a) then a else internal_server_error.

(** ** What a stored document is to look like when sent *)


(** * Properties *)

(** ** The codec *)

Lemma is_valid_true s : ObjectId.is_valid s = true ↔ is_Some (ObjectId.of_str s).
Proof.
  unfold ObjectId.is_valid. destruct (ObjectId.of_str s) as [o|].
  - split; eauto.
  - split; [discriminate | intros [o Ho]; discriminate].
Qed.

Lemma is_valid_of_str s o : ObjectId.of_str s = Some o → ObjectId.is_valid s = true.
Proof. intros H. apply is_valid_true. eauto. Qed.

Lemma ObjectId_new_valid s o db :
  ObjectId.of_str s = Some o → ObjectId_new s db = (inr o, db).
Proof. intros H. unfold ObjectId_new. by rewrite H. Qed.

Lemma hex_val_hex_digit d : (d < 16)%N → ObjectId.hex_val (ObjectId.hex_digit d) = Some d.
Proof.
  intros Hd.
  assert (Hcases : d ∈ N.of_nat <$> seq 0 16).
  { apply list_elem_of_fmap. exists (N.to_nat d). split; [lia|].
    apply elem_of_seq. lia. }
  cbn in Hcases. rewrite !elem_of_cons, elem_of_nil in Hcases.
  repeat (destruct Hcases as [->|Hcases]; [reflexivity|]). done.
Qed.

Lemma is_space_hex_digit d : (d < 16)%N → ObjectId.is_space (ObjectId.hex_digit d) = false.
Proof.
  intros Hd.
  assert (Hcases : d ∈ N.of_nat <$> seq 0 16).
  { apply list_elem_of_fmap. exists (N.to_nat d). split; [lia|].
    apply elem_of_seq. lia. }
  cbn in Hcases. rewrite !elem_of_cons, elem_of_nil in Hcases.
  repeat (destruct Hcases as [->|Hcases]; [reflexivity|]). done.
Qed.

(** The [k] low bytes of [v], most significant first. *)
Lemma hex_two k v tail :
  ObjectId.hex (S (S k)) v tail
  = ObjectId.hex k (v / 256)%N
      (String (ObjectId.hex_digit ((v / 16) mod 16)%N)
         (String (ObjectId.hex_digit (v mod 16)%N) tail)).
Proof.
  cbn [ObjectId.hex]. rewrite N.Div0.div_div. reflexivity.
Qed.

Lemma fromhex_hex k v tail :
  ∃ bytes,
    length bytes = k
    ∧ ObjectId.big_endian bytes = (v mod 256 ^ N.of_nat k)%N
    ∧ ObjectId.fromhex (ObjectId.hex (2 * k) v tail)
      = (bytes ++.) <$> ObjectId.fromhex tail.
Proof.
  revert v tail. induction k as [|k IH]; intros v tail.
  - exists []. split; [done|]. split; [by rewrite N.mod_1_r|].
    simpl. by destruct (ObjectId.fromhex tail).
  - replace (2 * S k)%nat with (S (S (2 * k))) by lia. rewrite hex_two.
    destruct (IH (v / 256)%N
                (String (ObjectId.hex_digit ((v / 16) mod 16)%N)
                   (String (ObjectId.hex_digit (v mod 16)%N) tail)))
      as (bytes & Hlen & Hval & Hparse).
    exists (app bytes [(v mod 256)%N]). split; [rewrite length_app; simpl; lia|].
    split.
    + unfold ObjectId.big_endian in *. rewrite fold_left_app. simpl. rewrite Hval.
      rewrite Nat2N.inj_succ, N.pow_succ_r'.
      rewrite (N.Div0.mod_mul_r v 256 (256 ^ N.of_nat k)). lia.
    + rewrite Hparse. cbn [ObjectId.fromhex].
      rewrite is_space_hex_digit by (apply N.mod_upper_bound; lia).
      rewrite !hex_val_hex_digit by (apply N.mod_upper_bound; lia).
      replace (16 * ((v / 16) mod 16) + v mod 16)%N with (v mod 256)%N.
      * destruct (ObjectId.fromhex tail) as [rest|]; simpl; [|done].
        by rewrite <- app_assoc.
      * change 256%N with (16 * 16)%N. rewrite (N.Div0.mod_mul_r v 16 16). lia.
Qed.

Lemma length_hex n v tail :
  String.length (ObjectId.hex n v tail) = (n + String.length tail)%nat.
Proof.
  revert v tail. induction n as [|n IH]; intros v tail; [done|].
  cbn [ObjectId.hex]. rewrite IH. simpl. lia.
Qed.

(** The codec round-trips on twelve-byte identifiers. *)
Lemma of_str_str o : (o < 2 ^ 96)%N → ObjectId.of_str (ObjectId.str o) = Some o.
Proof.
  intros Ho. unfold ObjectId.of_str, ObjectId.str.
  rewrite (proj2 (N.ltb_lt _ _) Ho).
  rewrite length_hex. simpl Nat.eqb. cbv iota.
  destruct (fromhex_hex 12 o "") as (bytes & Hlen & Hval & Hparse).
  change (2 * 12)%nat with 24%nat in Hparse. rewrite Hparse.
  cbn [ObjectId.fromhex fmap option_fmap option_map]. rewrite app_nil_r.
  unfold ObjectId.of_bytes. rewrite Hlen. simpl Nat.eqb. cbv iota.
  rewrite Hval. change (256 ^ N.of_nat 12)%N with (2 ^ 96)%N.
  by rewrite N.mod_small.
Qed.

(** ** Running store operations on a reachable database *)

Section Run.

Variable st : Database.
Hypothesis reachable : fault st = None.

Lemma db_coll_run coll : db_coll coll (Some st) = (inr coll, Some st).
Proof. reflexivity. Qed.

Lemma with_collection_run {A} c (op : Database → A * Database) :
  with_collection c op (Some st)
  = (inr (op (record_call c st)).1, Some (op (record_call c st)).2).
Proof.
  unfold with_collection. rewrite reachable.
  by destruct (op (record_call c st)).
Qed.

Lemma find_one_run coll oid :
  find_one coll oid (Some st)
  = (inr (first_match oid (collection st coll)),
     Some (record_call (CallFindOne coll oid) st)).
Proof. unfold find_one. by rewrite with_collection_run. Qed.

Lemma update_one_run coll oid fields :
  update_one coll oid fields (Some st)
  = (inr tt,
     Some (set_collection coll (set_first oid fields (collection st coll))
             (record_call (CallUpdateOne coll oid fields) st))).
Proof. unfold update_one. by rewrite with_collection_run. Qed.

Lemma delete_one_run coll oid :
  delete_one coll oid (Some st)
  = (inr (remove_first oid (collection st coll)).1,
     Some (set_collection coll (remove_first oid (collection st coll)).2
             (record_call (CallDeleteOne coll oid) st))).
Proof.
  unfold delete_one. rewrite with_collection_run.
  unfold collection at 1 2; simpl. fold (collection st coll).
  by destruct (remove_first oid (collection st coll)).
Qed.

Lemma delete_many_run coll :
  delete_many coll (Some st)
  = (inr tt, Some (set_collection coll [] (record_call (CallDeleteMany coll) st))).
Proof. unfold delete_many. by rewrite with_collection_run. Qed.

Lemma create_document_run coll data :
  create_document coll data (Some st)
  = (inr (next_oid st),
     Some (bump_oid (set_collection coll
                       (collection st coll ++ [<["_id" := VOid (next_oid st)]> data])
                       (record_call (CallInsertOne coll data) st)))).
Proof. unfold create_document. by rewrite with_collection_run. Qed.

Lemma get_documents_run coll limit :
  get_documents coll limit (Some st)
  = (inr (match limit with
          | Some n => take n (collection st coll)
          | None => collection st coll
          end),
     Some (record_call (CallFind coll limit) st)).
Proof. unfold get_documents. by rewrite with_collection_run. Qed.

End Run.

Lemma collection_set_same coll docs st :
  collection (set_collection coll docs st) coll = docs.
Proof. unfold collection, set_collection; simpl. by rewrite lookup_insert_eq. Qed.

Lemma collection_set_other coll coll' docs st :
  coll ≠ coll' → collection (set_collection coll docs st) coll' = collection st coll'.
Proof.
  intros Hne. unfold collection, set_collection; simpl.
  by rewrite lookup_insert_ne.
Qed.

Lemma collection_record_call c st coll :
  collection (record_call c st) coll = collection st coll.
Proof. reflexivity. Qed.

Lemma collection_bump_oid st coll :
  collection (bump_oid st) coll = collection st coll.
Proof. reflexivity. Qed.

(** Symbolic execution of a handler on a reachable database. *)
Ltac run_step :=
  first
    [ rewrite db_coll_run
    | rewrite (ObjectId_new_valid _ _ _ ltac:(eassumption))
    | rewrite find_one_run by (simpl; assumption)
    | rewrite update_one_run by (simpl; assumption)
    | rewrite delete_one_run by (simpl; assumption)
    | rewrite delete_many_run by (simpl; assumption)
    | rewrite create_document_run by (simpl; assumption)
    | rewrite get_documents_run by (simpl; assumption) ];
  cbv beta iota.

Ltac run := unfold bind, try_except, ret, raise; cbv beta iota; repeat run_step.

(** ** Partial update: the field set *)

Lemma update_fields_lookup payload k v :
  update_fields payload !! k = Some v
  ↔ ProjectUpdate.model_dump payload !! k = Some v ∧ v ≠ VNull.
Proof.
  unfold update_fields, drop_None. rewrite map_lookup_filter_Some. simpl.
  split; intros [H1 H2]; split; try done.
  - intros ->. discriminate.
  - by destruct v.
Qed.

Lemma update_fields_no_fields : update_fields no_fields = ∅.
Proof.
  apply map_eq. intros k. rewrite lookup_empty.
  apply eq_None_not_Some. intros [v Hv].
  apply update_fields_lookup in Hv as [Hv Hnn].
  unfold ProjectUpdate.model_dump, no_fields in Hv. simpl in Hv.
  repeat (rewrite lookup_insert in Hv; case_decide; [by simplify_eq|]).
  by rewrite lookup_empty in Hv.
Qed.

Lemma update_fields_empty payload : update_fields payload = ∅ ↔ payload = no_fields.
Proof.
  split; [|intros ->; apply update_fields_no_fields].
  intros He.
  assert (Hnone : ∀ k v, ProjectUpdate.model_dump payload !! k = Some v → v = VNull).
  { intros k v Hk. destruct (decide (is_not_None v = true)) as [Hv|Hv].
    - assert (Hl : update_fields payload !! k = Some v).
      { apply update_fields_lookup. split; [done|]. by intros ->. }
      by rewrite He, lookup_empty in Hl.
    - clear He Hk. destruct v; [reflexivity | exfalso; apply Hv; reflexivity ..]. }
  clear He. destruct payload as [t d g i l r]. unfold no_fields.
  unfold ProjectUpdate.model_dump in Hnone.
  cbn [ProjectUpdate.title ProjectUpdate.description ProjectUpdate.tags
       ProjectUpdate.image_url ProjectUpdate.live_url ProjectUpdate.repo_url]
    in Hnone.
  assert (t = None) as ->.
  { destruct t as [x|]; [|done]. specialize (Hnone "title" (VStr x)).
    rewrite lookup_insert_eq in Hnone. by specialize (Hnone eq_refl). }
  assert (d = None) as ->.
  { destruct d as [x|]; [|done]. specialize (Hnone "description" (VStr x)).
    rewrite lookup_insert_ne, lookup_insert_eq in Hnone by done.
    by specialize (Hnone eq_refl). }
  assert (g = None) as ->.
  { destruct g as [x|]; [|done]. specialize (Hnone "tags" (str_list x)).
    rewrite !lookup_insert_ne, lookup_insert_eq in Hnone by done.
    by specialize (Hnone eq_refl). }
  assert (i = None) as ->.
  { destruct i as [x|]; [|done]. specialize (Hnone "image_url" (VStr x)).
    rewrite !lookup_insert_ne, lookup_insert_eq in Hnone by done.
    by specialize (Hnone eq_refl). }
  assert (l = None) as ->.
  { destruct l as [x|]; [|done]. specialize (Hnone "live_url" (VStr x)).
    rewrite !lookup_insert_ne, lookup_insert_eq in Hnone by done.
    by specialize (Hnone eq_refl). }
  assert (r = None) as ->.
  { destruct r as [x|]; [|done]. specialize (Hnone "repo_url" (VStr x)).
    rewrite !lookup_insert_ne, lookup_insert_eq in Hnone by done.
    by specialize (Hnone eq_refl). }
  done.
Qed.

Lemma model_dump_update_no_id payload :
  ProjectUpdate.model_dump payload !! "_id" = None.
Proof.
  unfold ProjectUpdate.model_dump.
  rewrite !lookup_insert_ne by done. apply lookup_empty.
Qed.

Lemma update_fields_no_id payload : update_fields payload !! "_id" = None.
Proof.
  apply eq_None_not_Some. intros [v Hv].
  apply update_fields_lookup in Hv as [Hv _].
  by rewrite model_dump_update_no_id in Hv.
Qed.

Lemma update_fields_no_updated_at payload :
  ProjectUpdate.model_dump payload !! "updated_at" = None.
Proof.
  unfold ProjectUpdate.model_dump.
  rewrite !lookup_insert_ne by done. apply lookup_empty.
Qed.

(** ** Identifier validation at the two endpoints taking an identifier *)

Lemma fromhex_foreign n s :
  (String.length s ≤ n)%nat → has_foreign s = true → ObjectId.fromhex s = None.
Proof.
  revert s. induction n as [n IH] using lt_wf_ind. intros s Hn Hs.
  destruct s as [|c s']; [discriminate|]. cbn [ObjectId.fromhex has_foreign] in *.
  simpl String.length in Hn.
  destruct (ObjectId.hex_val c) as [top|] eqn:Hc.
  - destruct (ObjectId.is_space c); [apply (IH (String.length s')); [lia|lia|done]|].
    destruct s' as [|c' s'']; [done|]. cbn [has_foreign] in Hs.
    simpl String.length in Hn.
    destruct (ObjectId.hex_val c') as [bot|]; [|done].
    rewrite (IH (String.length s'')) by (lia || done). done.
  - destruct (ObjectId.is_space c); [|done].
    apply (IH (String.length s')); [lia|lia|done].
Qed.

(** What [ObjectId.is_valid] is sure to reject: a string that is not
    twenty-four characters long, and a string holding a character that is
    neither a hexadecimal digit nor whitespace. *)
Lemma is_valid_rejects s :
  String.length s ≠ 24%nat ∨ has_foreign s = true → ObjectId.is_valid s = false.
Proof.
  unfold ObjectId.is_valid, ObjectId.of_str. intros [Hl|Hf].
  - by rewrite (proj2 (Nat.eqb_neq _ _) Hl).
  - rewrite (fromhex_foreign _ s (le_n _) Hf). by destruct (_ =? _)%nat.
Qed.

(** C5, as the code has it: an identifier that [ObjectId.is_valid]
    rejects (any string that is not twenty-four characters long, or that
    [bytes.fromhex] cannot parse) is answered with status 400 by both the
    [PUT] and the [DELETE] handler of [/api/admin/projects/{id}], whatever
    the body and whatever the state of [db]; the database, the list of
    store calls included, is left as it was. *)
Theorem invalid_identifier_rejected s payload db :
  ObjectId.is_valid s = false →
  endpoint (update_project s payload) db
    = (error_response 400 "Invalid project id", db)
  ∧ endpoint (delete_project s) db
    = (error_response 400 "Invalid project id", db).
Proof.
  intros Hs. unfold endpoint, update_project, delete_project, try_except.
  rewrite Hs. simpl. done.
Qed.

Lemma invalid_identifier_rejected_witness :
  ObjectId.is_valid "not-an-id" = false
  ∧ endpoint (update_project "not-an-id" no_fields) (Some (fresh_database "portfolio"))
    = (error_response 400 "Invalid project id", Some (fresh_database "portfolio"))
  ∧ endpoint (delete_project "not-an-id") (Some (fresh_database "portfolio"))
    = (error_response 400 "Invalid project id", Some (fresh_database "portfolio")).
Proof.
  split; [reflexivity|].
  apply (invalid_identifier_rejected "not-an-id" no_fields
           (Some (fresh_database "portfolio"))).
  reflexivity.
Defined.

(** C5 as the spec words it, refuted: twenty-four characters with spaces
    between the digit pairs are no hexadecimal identifier, yet they pass
    [ObjectId.is_valid]; [DELETE] goes on to its [delete_one] and answers
    200, [PUT] goes on to its [find_one] and answers 500. *)
Lemma spaced_identifier_is_not_rejected :
  ObjectId.spec_is_valid "0000 0000 0000 0000 0000" = false
  ∧ ObjectId.is_valid "0000 0000 0000 0000 0000" = true
  ∧ (serve (DeleteAdminProject "0000 0000 0000 0000 0000") (Some sample_database)).1
    = ok_response (VDict {["deleted" := VBool false]})
  ∧ calls <$> (serve (DeleteAdminProject "0000 0000 0000 0000 0000")
                 (Some sample_database)).2
    = Some [CallDeleteOne "project" (11 * 2 ^ 96)%N]
  ∧ (serve (PutAdminProject "0000 0000 0000 0000 0000" sample_update)
       (Some sample_database)).1
    = error_response 500 "'NoneType' object has no attribute 'get'"
  ∧ calls <$> (serve (PutAdminProject "0000 0000 0000 0000 0000" sample_update)
                 (Some sample_database)).2
    = Some [CallFindOne "project" (11 * 2 ^ 96)%N].
Proof.
  split; [reflexivity|]. split; [reflexivity|].
  split; [vm_compute; reflexivity|]. split; [vm_compute; reflexivity|].
  split; vm_compute; reflexivity.
Qed.

(** ** Partial update with nothing to apply *)

(** C7: with a well-formed identifier and a body that supplies no
    non-null field, [PUT /api/admin/projects/{id}] answers
    [{"updated": false}] and issues no store call at all: the database,
    every document and the list of calls, is exactly what it was. *)
Theorem empty_update_touches_nothing pid db :
  ObjectId.is_valid pid = true →
  endpoint (update_project pid no_fields) db
    = (ok_response (VDict {["updated" := VBool false]}), db).
Proof.
  intros Hp. unfold endpoint, update_project, try_except.
  rewrite Hp. simpl. rewrite decide_True by apply update_fields_no_fields.
  done.
Qed.

Lemma empty_update_touches_nothing_witness :
  ObjectId.is_valid "0123456789abcdefABCDEF00" = true
  ∧ endpoint (update_project "0123456789abcdefABCDEF00" no_fields)
      (Some (fresh_database "portfolio"))
    = (ok_response (VDict {["updated" := VBool false]}),
       Some (fresh_database "portfolio")).
Proof.
  split; [reflexivity|].
  apply (empty_update_touches_nothing "0123456789abcdefABCDEF00"
           (Some (fresh_database "portfolio"))).
  reflexivity.
Defined.

(** ** Matching, updating and removing by identifier *)

Lemma first_match_has_oid oid docs d :
  first_match oid docs = Some d → has_oid oid d = true.
Proof.
  induction docs as [|d0 rest IH]; simpl; [done|].
  destruct (has_oid oid d0) eqn:E; [|done].
  intros [= <-]. done.
Qed.

Lemma has_oid_doc_oid oid d : has_oid oid d = true ↔ doc_oid d = Some oid.
Proof.
  unfold has_oid. destruct (doc_oid d) as [o|]; [|done].
  rewrite N.eqb_eq. split; congruence.
Qed.

Lemma first_match_elem_of oid docs d : first_match oid docs = Some d → d ∈ docs.
Proof.
  induction docs as [|d0 rest IH]; simpl; [done|].
  destruct (has_oid oid d0).
  - intros [= <-]. apply elem_of_cons; by left.
  - intros H. apply elem_of_cons; right; auto.
Qed.

Lemma first_match_None oid docs :
  first_match oid docs = None ↔ oid ∉ omap doc_oid docs.
Proof.
  induction docs as [|d rest IH]; simpl.
  - split; [intros _; apply not_elem_of_nil | done].
  - destruct (has_oid oid d) eqn:E.
    + apply has_oid_doc_oid in E. rewrite E. split; [done|].
      intros Hn. exfalso. apply Hn. apply elem_of_cons; by left.
    + destruct (doc_oid d) as [o|] eqn:Ed; [|done].
      rewrite not_elem_of_cons, IH. split; [|tauto].
      intros Hr. split; [|done]. intros ->.
      apply has_oid_doc_oid in Ed. congruence.
Qed.

Lemma doc_oid_union fields d :
  fields !! "_id" = None → doc_oid (fields ∪ d) = doc_oid d.
Proof. intros Hf. unfold doc_oid. by rewrite lookup_union_r. Qed.

Lemma first_match_set_first oid fields docs d :
  fields !! "_id" = None →
  first_match oid docs = Some d →
  first_match oid (set_first oid fields docs) = Some (fields ∪ d).
Proof.
  intros Hf. induction docs as [|d0 rest IH]; simpl; [done|].
  destruct (has_oid oid d0) eqn:E; simpl.
  - intros [= <-]. unfold has_oid. rewrite doc_oid_union by done.
    fold (has_oid oid d0). by rewrite E.
  - rewrite E. done.
Qed.

Lemma remove_first_count oid docs :
  (remove_first oid docs).1
  = match first_match oid docs with Some _ => 1%nat | None => 0%nat end.
Proof.
  induction docs as [|d rest IH]; simpl; [done|].
  destruct (has_oid oid d); [done|].
  destruct (remove_first oid rest). done.
Qed.

Lemma remove_first_gone oid docs :
  unique_ids docs → first_match oid (remove_first oid docs).2 = None.
Proof.
  unfold unique_ids. induction docs as [|d rest IH]; simpl; [done|].
  destruct (has_oid oid d) eqn:E; simpl.
  - apply has_oid_doc_oid in E. rewrite E. intros Hnd.
    apply NoDup_cons in Hnd as [Hn _]. by apply first_match_None.
  - intros Hnd. destruct (remove_first oid rest) as [n rest'] eqn:Er. simpl.
    rewrite E. apply IH. destruct (doc_oid d); [|done].
    by apply NoDup_cons in Hnd as [_ ?].
Qed.

Lemma applied_fields_no_id payload doc : applied_fields payload doc !! "_id" = None.
Proof.
  unfold applied_fields. rewrite lookup_insert_ne by done.
  apply update_fields_no_id.
Qed.

(** ** Partial update: the two ways past the emptiness test *)

Lemma update_project_found pid oid payload st doc :
  fault st = None →
  ObjectId.of_str pid = Some oid →
  update_fields payload ≠ ∅ →
  first_match oid (collection st "project") = Some doc →
  let data := applied_fields payload doc in
  update_project pid payload (Some st)
  = (inr (json_of (to_serializable (Some (data ∪ doc)))),
     Some (record_call (CallFindOne "project" oid)
             (set_collection "project"
                (set_first oid data (collection st "project"))
                (record_call (CallUpdateOne "project" oid data)
                   (record_call (CallFindOne "project" oid) st))))).
Proof.
  intros Hf Hoid Hne Hdoc data. unfold update_project.
  rewrite (is_valid_of_str _ _ Hoid). simpl negb. cbv iota.
  rewrite decide_False by done. run.
  rewrite Hdoc. unfold get_attr. run.
  rewrite collection_record_call, collection_set_same.
  rewrite (first_match_set_first _ _ _ doc) by (apply applied_fields_no_id || done).
  done.
Qed.

Lemma update_project_missing pid oid payload st :
  fault st = None →
  ObjectId.of_str pid = Some oid →
  update_fields payload ≠ ∅ →
  first_match oid (collection st "project") = None →
  update_project pid payload (Some st)
  = (inl (HTTPException 500 "'NoneType' object has no attribute 'get'"),
     Some (record_call (CallFindOne "project" oid) st)).
Proof.
  intros Hf Hoid Hne Hdoc. unfold update_project.
  rewrite (is_valid_of_str _ _ Hoid). simpl negb. cbv iota.
  rewrite decide_False by done. run.
  rewrite Hdoc. done.
Qed.

(** C2: a well-formed identifier that names no stored project, with a body
    supplying a field.  The read on line 120 returns [None], the attribute
    access on it raises, and the handler's last clause turns that into a
    status 500 whose detail is the interpreter's message; no [NotFound]
    error is produced. *)
Theorem update_of_absent_document_is_500 :
  endpoint
    (update_project "000000000000000000000000"
       {| ProjectUpdate.title := Some "New"; ProjectUpdate.description := None;
          ProjectUpdate.tags := None; ProjectUpdate.image_url := None;
          ProjectUpdate.live_url := None; ProjectUpdate.repo_url := None |})
    (Some (fresh_database "portfolio"))
  = (error_response 500 "'NoneType' object has no attribute 'get'",
     Some (record_call (CallFindOne "project" 0%N) (fresh_database "portfolio"))).
Proof.
  unfold endpoint.
  rewrite (update_project_missing _ 0%N); try reflexivity.
  intros H. apply (f_equal (λ m, m !! "title")) in H. vm_compute in H. discriminate.
Qed.

(** C3: for a target that exists, the dict handed to [$set] holds, of the
    fields of the request model, exactly those whose value is not [None],
    each with the value of the request, and these replace what was stored:
    [tags = []] and an empty string are applied like any other value. *)
Theorem update_applies_the_supplied_fields pid oid payload st doc :
  fault st = None →
  ObjectId.of_str pid = Some oid →
  update_fields payload ≠ ∅ →
  first_match oid (collection st "project") = Some doc →
  ∃ data st' doc',
    (update_project pid payload (Some st)).2 = Some st'
    ∧ calls st' = (calls st ++ [CallFindOne "project" oid;
                                CallUpdateOne "project" oid data;
                                CallFindOne "project" oid])%list
    ∧ (∀ k v, k ≠ "updated_at" →
         data !! k = Some v
         ↔ ProjectUpdate.model_dump payload !! k = Some v ∧ v ≠ VNull)
    ∧ first_match oid (collection st' "project") = Some doc'
    ∧ (∀ k v, data !! k = Some v → doc' !! k = Some v)
    ∧ (∀ k, data !! k = None → doc' !! k = doc !! k)
    ∧ (∀ s, ProjectUpdate.title payload = Some s → doc' !! "title" = Some (VStr s))
    ∧ (∀ l, ProjectUpdate.tags payload = Some l → doc' !! "tags" = Some (str_list l)).
Proof.
  intros Hf Hoid Hne Hdoc.
  pose (data := applied_fields payload doc).
  assert (Hchar : ∀ k v, k ≠ "updated_at" →
            data !! k = Some v
            ↔ ProjectUpdate.model_dump payload !! k = Some v ∧ v ≠ VNull).
  { intros k v Hk. unfold data, applied_fields.
    rewrite lookup_insert_ne by done. apply update_fields_lookup. }
  eexists data, _, (data ∪ doc).
  rewrite (update_project_found pid oid payload st doc) by done. cbn [snd].
  split; [reflexivity|]. split.
  { simpl. by rewrite <- !app_assoc. }
  split; [exact Hchar|]. split.
  { rewrite collection_record_call, collection_set_same.
    apply first_match_set_first; [apply applied_fields_no_id | done]. }
  split; [intros k v Hk; by apply lookup_union_Some_l|].
  split; [intros k Hk; by apply lookup_union_r|].
  split.
  - intros s Hs. apply lookup_union_Some_l. apply Hchar; [done|].
    unfold ProjectUpdate.model_dump. rewrite lookup_insert_eq, Hs. done.
  - intros l Hl. apply lookup_union_Some_l. apply Hchar; [done|].
    unfold ProjectUpdate.model_dump.
    rewrite !lookup_insert_ne by done. rewrite lookup_insert_eq, Hl. done.
Qed.

Lemma sample_update_supplies_fields : update_fields sample_update ≠ ∅.
Proof.
  intros H. apply (f_equal (λ m, m !! "title")) in H.
  vm_compute in H. discriminate.
Defined.

Lemma update_applies_the_supplied_fields_witness :
  ∃ data st' doc',
    (update_project "000000000000000000000007" sample_update
       (Some sample_database)).2 = Some st'
    ∧ calls st' = (calls sample_database
                   ++ [CallFindOne "project" 7%N;
                       CallUpdateOne "project" 7%N data;
                       CallFindOne "project" 7%N])%list
    ∧ (∀ k v, k ≠ "updated_at" →
         data !! k = Some v
         ↔ ProjectUpdate.model_dump sample_update !! k = Some v ∧ v ≠ VNull)
    ∧ first_match 7%N (collection st' "project") = Some doc'
    ∧ (∀ k v, data !! k = Some v → doc' !! k = Some v)
    ∧ (∀ k, data !! k = None → doc' !! k = sample_project !! k)
    ∧ (∀ s, ProjectUpdate.title sample_update = Some s →
         doc' !! "title" = Some (VStr s))
    ∧ (∀ l, ProjectUpdate.tags sample_update = Some l →
         doc' !! "tags" = Some (str_list l)).
Proof.
  apply (update_applies_the_supplied_fields
           "000000000000000000000007" 7%N sample_update sample_database
           sample_project).
  - reflexivity.
  - reflexivity.
  - exact sample_update_supplies_fields.
  - reflexivity.
Defined.

(** C10: whenever the handler gets as far as writing, that is, for a
    well-formed identifier of a stored project and a body supplying a field,
    the dict handed to [$set] has the key [updated_at], which the request
    model does not have; its value is the one the target held, or [None]
    when the target had no such field. *)
Theorem update_carries_updated_at pid oid payload st doc :
  fault st = None →
  ObjectId.of_str pid = Some oid →
  update_fields payload ≠ ∅ →
  first_match oid (collection st "project") = Some doc →
  ∃ data st',
    (update_project pid payload (Some st)).2 = Some st'
    ∧ calls st' = (calls st ++ [CallFindOne "project" oid;
                                CallUpdateOne "project" oid data;
                                CallFindOne "project" oid])%list
    ∧ (∀ v, doc !! "updated_at" = Some v → data !! "updated_at" = Some v)
    ∧ (doc !! "updated_at" = None → data !! "updated_at" = Some VNull)
    ∧ ProjectUpdate.model_dump payload !! "updated_at" = None.
Proof.
  intros Hf Hoid Hne Hdoc.
  exists (applied_fields payload doc). eexists.
  rewrite (update_project_found pid oid payload st doc) by done. cbn [snd].
  split; [reflexivity|]. split; [simpl; by rewrite <- !app_assoc|].
  unfold applied_fields. rewrite lookup_insert_eq.
  split; [by intros v ->|]. split; [by intros ->|].
  apply update_fields_no_updated_at.
Qed.

Lemma update_carries_updated_at_witness :
  ∃ data st',
    (update_project "000000000000000000000007" sample_update
       (Some sample_database)).2 = Some st'
    ∧ calls st' = (calls sample_database
                   ++ [CallFindOne "project" 7%N;
                       CallUpdateOne "project" 7%N data;
                       CallFindOne "project" 7%N])%list
    ∧ (∀ v, sample_project !! "updated_at" = Some v →
         data !! "updated_at" = Some v)
    ∧ (sample_project !! "updated_at" = None →
         data !! "updated_at" = Some VNull)
    ∧ ProjectUpdate.model_dump sample_update !! "updated_at" = None.
Proof.
  apply (update_carries_updated_at
           "000000000000000000000007" 7%N sample_update sample_database
           sample_project).
  - reflexivity.
  - reflexivity.
  - exact sample_update_supplies_fields.
  - reflexivity.
Defined.

(** ** Deletion by identifier *)

(** C8: on a reachable database, for a well-formed identifier,
    [DELETE /api/admin/projects/{id}] answers [{"deleted": false}] when no
    project carries the identifier and [{"deleted": true}] when one does;
    either way a lookup of the identifier afterwards finds nothing. *)
Theorem delete_project_reports pid oid st :
  fault st = None →
  ObjectId.of_str pid = Some oid →
  unique_ids (collection st "project") →
  ∃ st',
    (endpoint (delete_project pid) (Some st)).2 = Some st'
    ∧ (first_match oid (collection st "project") = None →
         (endpoint (delete_project pid) (Some st)).1
         = ok_response (VDict {["deleted" := VBool false]}))
    ∧ (is_Some (first_match oid (collection st "project")) →
         (endpoint (delete_project pid) (Some st)).1
         = ok_response (VDict {["deleted" := VBool true]}))
    ∧ (find_one "project" oid (Some st')).1 = inr None.
Proof.
  intros Hf Hoid Huniq. unfold endpoint, delete_project.
  rewrite (is_valid_of_str _ _ Hoid). simpl negb. cbv iota. run.
  eexists. split; [reflexivity|]. cbn [fst snd respond].
  rewrite remove_first_count. split; [|split].
  - by intros ->.
  - by intros [d ->].
  - rewrite find_one_run by done. cbn [fst].
    rewrite collection_set_same. by rewrite remove_first_gone.
Qed.

Lemma delete_project_reports_witness :
  ∃ st',
    (endpoint (delete_project "000000000000000000000007")
       (Some sample_database)).2 = Some st'
    ∧ (first_match 7%N (collection sample_database "project") = None →
         (endpoint (delete_project "000000000000000000000007")
            (Some sample_database)).1
         = ok_response (VDict {["deleted" := VBool false]}))
    ∧ (is_Some (first_match 7%N (collection sample_database "project")) →
         (endpoint (delete_project "000000000000000000000007")
            (Some sample_database)).1
         = ok_response (VDict {["deleted" := VBool true]}))
    ∧ (find_one "project" 7%N (Some st')).1 = inr None.
Proof.
  apply (delete_project_reports "000000000000000000000007" 7%N sample_database).
  - reflexivity.
  - reflexivity.
  - apply NoDup_singleton.
Defined.

(** ** Serialization of a document with a native identifier *)

Lemma to_serializable_native d o :
  doc_oid d = Some o →
  to_serializable (Some d)
  = Some (<["id" := VStr (ObjectId.str o)]> (delete "_id" d)).
Proof.
  unfold doc_oid, to_serializable. intros H.
  destruct (d !! "_id") as [v|] eqn:Hid; [|done].
  destruct v; try done. injection H as ->.
  case_decide as He; [|done].
  subst d. by rewrite lookup_empty in Hid.
Qed.

Lemma doc_oid_stored o data : doc_oid (<["_id" := VOid o]> data) = Some o.
Proof. unfold doc_oid. by rewrite lookup_insert_eq. Qed.

Lemma to_serializable_stored o data :
  data !! "_id" = None →
  to_serializable (Some (<["_id" := VOid o]> data))
  = Some (<["id" := VStr (ObjectId.str o)]> data).
Proof.
  intros Hd. rewrite (to_serializable_native _ o) by apply doc_oid_stored.
  by rewrite delete_insert_eq, delete_id.
Qed.

Lemma settings_dump_no_id payload : Settings.model_dump payload !! "_id" = None.
Proof.
  unfold Settings.model_dump.
  rewrite !lookup_insert_ne by done. apply lookup_empty.
Qed.

Lemma project_dump_no_id payload : Project.model_dump payload !! "_id" = None.
Proof.
  unfold Project.model_dump.
  rewrite !lookup_insert_ne by done. apply lookup_empty.
Qed.

Lemma has_oid_stored o data : has_oid o (<["_id" := VOid o]> data) = true.
Proof. apply has_oid_doc_oid, doc_oid_stored. Qed.

(** ** The settings singleton *)

Lemma upsert_settings_run payload st :
  fault st = None →
  upsert_settings payload (Some st)
  = (inr (VDict (<["id" := VStr (ObjectId.str (next_oid st))]>
                   (Settings.model_dump payload))),
     Some (record_call (CallFindOne "settings" (next_oid st))
             (bump_oid
                (set_collection "settings"
                   [<["_id" := VOid (next_oid st)]> (Settings.model_dump payload)]
                   (record_call
                      (CallInsertOne "settings" (Settings.model_dump payload))
                      (set_collection "settings" []
                         (record_call (CallDeleteMany "settings") st))))))).
Proof.
  intros Hf. unfold upsert_settings. run.
  rewrite collection_bump_oid, !collection_set_same.
  simpl (next_oid _). cbn [app first_match].
  rewrite has_oid_stored.
  by rewrite to_serializable_stored by apply settings_dump_no_id.
Qed.

(** C4: on a reachable database, the admin upsert with payload [P]
    followed by the public read returns [P]'s dumped fields with the string
    [id] of the new document added and nothing else, and the settings
    collection then holds that one document only. *)
Theorem upsert_then_get_public_settings payload st :
  fault st = None →
  let public :=
    <["id" := VStr (ObjectId.str (next_oid st))]> (Settings.model_dump payload) in
  ∃ st1 st2,
    endpoint (upsert_settings payload) (Some st)
      = (ok_response (VDict public), Some st1)
    ∧ endpoint get_public_settings (Some st1)
      = (ok_response (VDict public), Some st2)
    ∧ collection st2 "settings"
      = [<["_id" := VOid (next_oid st)]> (Settings.model_dump payload)]
    ∧ public !! "_id" = None
    ∧ dom public = {["id"]} ∪ dom (Settings.model_dump payload).
Proof.
  intros Hf public. eexists _, _. unfold endpoint.
  rewrite upsert_settings_run by done. split; [reflexivity|].
  unfold get_public_settings. run.
  rewrite collection_record_call, collection_bump_oid, collection_set_same.
  cbn [take].
  rewrite to_serializable_stored by apply settings_dump_no_id.
  split; [reflexivity|]. split.
  - by rewrite !collection_record_call, collection_bump_oid, collection_set_same.
  - split; [|apply dom_insert_L].
    unfold public. rewrite lookup_insert_ne by done. apply settings_dump_no_id.
Qed.

Lemma upsert_then_get_public_settings_witness :
  let public :=
    <["id" := VStr (ObjectId.str (next_oid sample_database))]>
      (Settings.model_dump sample_settings) in
  ∃ st1 st2,
    endpoint (upsert_settings sample_settings) (Some sample_database)
      = (ok_response (VDict public), Some st1)
    ∧ endpoint get_public_settings (Some st1)
      = (ok_response (VDict public), Some st2)
    ∧ collection st2 "settings"
      = [<["_id" := VOid (next_oid sample_database)]>
           (Settings.model_dump sample_settings)]
    ∧ public !! "_id" = None
    ∧ dom public = {["id"]} ∪ dom (Settings.model_dump sample_settings).
Proof.
  apply (upsert_then_get_public_settings sample_settings sample_database).
  reflexivity.
Defined.

(** ** What a client sees of a stored document *)

Lemma public_of_native d o :
  doc_oid d = Some o →
  ∃ d', to_serializable (Some d) = Some d'
        ∧ d' !! "_id" = None
        ∧ d' !! "id" = Some (VStr (ObjectId.str o))
        ∧ ∀ k, k ≠ "_id" → k ≠ "id" → d' !! k = d !! k.
Proof.
  intros Ho. eexists. split; [by apply to_serializable_native|].
  split; [|split].
  - rewrite lookup_insert_ne by done. apply lookup_delete_eq.
  - apply lookup_insert_eq.
  - intros k H1 H2. rewrite lookup_insert_ne by done. by apply lookup_delete_ne.
Qed.

Lemma public_body_of_native d :
  native d → public_body (json_of (to_serializable (Some d))).
Proof.
  intros [o Ho]. destruct (public_of_native d o Ho) as (d' & -> & H1 & H2 & _).
  exists d'. split; [done|]. split; eauto.
Qed.

Lemma serialize_all_public docs :
  Forall native docs → public_list (serialize_all docs).
Proof.
  unfold serialize_all. induction 1 as [|d docs Hd _ (ds & Hds & Hpub)].
  - exists []. split; [done | constructor].
  - destruct (public_body_of_native d Hd) as (d' & Hd' & Hp).
    exists (d' :: ds). split; [|by constructor].
    rewrite !fmap_cons. f_equal. f_equal; [exact Hd' | by injection Hds].
Qed.


Lemma native_of_first_match oid docs d : first_match oid docs = Some d → native d.
Proof.
  intros H%first_match_has_oid%has_oid_doc_oid. by exists oid.
Qed.


Lemma to_serializable_other d :
  doc_oid d = None → to_serializable (Some d) = Some d.
Proof.
  unfold to_serializable, doc_oid. intros H. case_decide; [done|].
  destruct (d !! "_id") as [v|]; [|done]. by destruct v.
Qed.







(** ** Bodies that fail validation *)

Lemma validate_settings_missing_name http_url (b : document) :
  b !! "name" = None → validate_settings http_url (VDict b) = None.
Proof. intros H. unfold validate_settings, required_str. by rewrite H. Qed.

Lemma validate_project_wrong_title http_url (b : document) z :
  b !! "title" = Some (VInt z) → validate_project http_url (VDict b) = None.
Proof. intros H. unfold validate_project, required_str. by rewrite H. Qed.

(** C6, as the code has it: a body that fails validation against the
    model of the route's parameter never enters [upsert_settings] or
    [create_project], so the clause of these handlers that answers 500 is not
    in play; the framework answers 422 itself and the database is left as it
    was. *)
Theorem rejected_body_is_answered_422
    http_url validation_errors settings_body project_body db :
  validate_settings http_url settings_body = None →
  validate_project http_url project_body = None →
  post_admin_settings http_url validation_errors settings_body db
    = ({| status := 422;
          body := VDict {["detail" := validation_errors settings_body]} |}, db)
  ∧ post_admin_projects http_url validation_errors project_body db
    = ({| status := 422;
          body := VDict {["detail" := validation_errors project_body]} |}, db).
Proof.
  intros Hs Hp. unfold post_admin_settings, post_admin_projects, with_body.
  by rewrite Hs, Hp.
Qed.

Lemma rejected_body_is_answered_422_witness :
  post_admin_settings (λ _, true) (λ _, VList [])
    (VDict {["role" := VStr "Engineer"]}) (Some sample_database)
    = ({| status := 422; body := VDict {["detail" := VList []]} |},
       Some sample_database)
  ∧ post_admin_projects (λ _, true) (λ _, VList [])
      (VDict {["title" := VInt 3]}) (Some sample_database)
    = ({| status := 422; body := VDict {["detail" := VList []]} |},
       Some sample_database).
Proof.
  apply (rejected_body_is_answered_422 (λ _, true) (λ _, VList [])
           (VDict {["role" := VStr "Engineer"]}) (VDict {["title" := VInt 3]})
           (Some sample_database)).
  - reflexivity.
  - reflexivity.
Defined.

(** C6 as the spec words it, refuted: the empty object lacks every
    required field of both models, and neither endpoint answers it with
    status 500. *)
Lemma rejected_body_is_not_answered_500 :
  validate_settings (λ _, true) (VDict ∅) = None
  ∧ validate_project (λ _, true) (VDict ∅) = None
  ∧ status (post_admin_settings (λ _, true) (λ _, VList []) (VDict ∅)
              (Some sample_database)).1 ≠ 500%Z
  ∧ status (post_admin_projects (λ _, true) (λ _, VList []) (VDict ∅)
              (Some sample_database)).1 ≠ 500%Z.
Proof. repeat split; (reflexivity || (vm_compute; discriminate)). Qed.

(** ** The diagnostic endpoint *)

Lemma probe_database_returns response db :
  ∃ r db', probe_database response db = (inr r, db').
Proof.
  unfold probe_database, try_except, list_collection_names, with_collection,
    bind, ret.
  destruct db as [st|]; [|eauto].
  destruct (fault st) as [msg|]; eauto.
Qed.

Lemma test_database_returns environ db :
  ∃ r db',
    probe_database initial_response db = (inr r, db')
    ∧ test_database environ db
      = (inr (VDict
                (<["database_name" := set_indicator (is_set environ "DATABASE_NAME")]>
                   (<["database_url" := set_indicator (is_set environ "DATABASE_URL")]>
                      r))),
         db').
Proof.
  destruct (probe_database_returns initial_response db) as (r & db' & Hr).
  exists r, db'. split; [done|].
  unfold test_database, bind, ret. by rewrite Hr.
Qed.

(** C9: [GET /test] answers 200 whatever the state of [db], reachable,
    unreachable or [None]; the two configuration entries of its body say
    only whether the variable is set (there and not empty), so two
    environments that agree on that get the same two entries, and with the
    same database the same body altogether. *)
Theorem test_database_reports_presence_only environ1 environ2 db1 db2 :
  is_set environ1 "DATABASE_URL" = is_set environ2 "DATABASE_URL" →
  is_set environ1 "DATABASE_NAME" = is_set environ2 "DATABASE_NAME" →
  ∃ r1 r2 db1' db2',
    endpoint (test_database environ1) db1 = (ok_response (VDict r1), db1')
    ∧ endpoint (test_database environ2) db2 = (ok_response (VDict r2), db2')
    ∧ r1 !! "database_url"
      = Some (set_indicator (is_set environ1 "DATABASE_URL"))
    ∧ r1 !! "database_name"
      = Some (set_indicator (is_set environ1 "DATABASE_NAME"))
    ∧ r1 !! "database_url" = r2 !! "database_url"
    ∧ r1 !! "database_name" = r2 !! "database_name"
    ∧ (db1 = db2 → r1 = r2).
Proof.
  intros Hurl Hname.
  destruct (test_database_returns environ1 db1) as (p1 & db1' & Hp1 & H1).
  destruct (test_database_returns environ2 db2) as (p2 & db2' & Hp2 & H2).
  eexists _, _, db1', db2'. unfold endpoint. rewrite H1, H2.
  split; [reflexivity|]. split; [reflexivity|].
  rewrite !lookup_insert_eq. rewrite !(lookup_insert_ne _ "database_name") by done.
  rewrite !lookup_insert_eq. rewrite Hurl, Hname.
  repeat split.
  intros ->. rewrite Hp1 in Hp2. by injection Hp2 as -> _.
Qed.

Lemma test_database_reports_presence_only_witness :
  ∃ r1 r2 db1' db2',
    endpoint (test_database {["DATABASE_URL" := "mongodb://alpha:27017"]})
      (Some sample_database) = (ok_response (VDict r1), db1')
    ∧ endpoint (test_database {["DATABASE_URL" := "mongodb://beta:27017"]})
        None = (ok_response (VDict r2), db2')
    ∧ r1 !! "database_url"
      = Some (set_indicator
                (is_set {["DATABASE_URL" := "mongodb://alpha:27017"]} "DATABASE_URL"))
    ∧ r1 !! "database_name"
      = Some (set_indicator
                (is_set {["DATABASE_URL" := "mongodb://alpha:27017"]} "DATABASE_NAME"))
    ∧ r1 !! "database_url" = r2 !! "database_url"
    ∧ r1 !! "database_name" = r2 !! "database_name"
    ∧ (Some sample_database = None → r1 = r2).
Proof.
  apply (test_database_reports_presence_only
           {["DATABASE_URL" := "mongodb://alpha:27017"]}
           {["DATABASE_URL" := "mongodb://beta:27017"]}
           (Some sample_database) None).
  - reflexivity.
  - reflexivity.
Defined.

(** A variable set to the empty string is reported like one that is not
    there. *)
Example empty_variable_is_not_set :
  is_set {["DATABASE_URL" := ""]} "DATABASE_URL" = false.
Proof. reflexivity. Qed.

(** * Further properties of the handlers *)

(** ** Serialization *)

(** X1: serializing twice is serializing once: once [_id] has been renamed
    there is nothing left for the function to rename. *)
Theorem to_serializable_idempotent doc :
  to_serializable (to_serializable doc) = to_serializable doc.
Proof.
  destruct doc as [d|]; [|done].
  destruct (doc_oid d) as [o|] eqn:Ho.
  - rewrite (to_serializable_native _ _ Ho).
    apply to_serializable_other. unfold doc_oid.
    rewrite lookup_insert_ne by done. by rewrite lookup_delete_eq.
  - rewrite (to_serializable_other _ Ho). by apply to_serializable_other.
Qed.

(** X2: two documents with different twelve-byte identifiers are sent with
    different [id] strings. *)
Theorem public_ids_distinct d1 d2 o1 o2 :
  doc_oid d1 = Some o1 → doc_oid d2 = Some o2 →
  (o1 < 2 ^ 96)%N → (o2 < 2 ^ 96)%N → o1 ≠ o2 →
  ∃ d1' d2' s1 s2,
    to_serializable (Some d1) = Some d1'
    ∧ to_serializable (Some d2) = Some d2'
    ∧ d1' !! "id" = Some (VStr s1)
    ∧ d2' !! "id" = Some (VStr s2)
    ∧ s1 ≠ s2.
Proof.
  intros H1 H2 Hb1 Hb2 Hne.
  eexists _, _, (ObjectId.str o1), (ObjectId.str o2).
  rewrite (to_serializable_native _ _ H1), (to_serializable_native _ _ H2).
  rewrite !lookup_insert_eq. repeat split.
  intros Hs. apply Hne.
  assert (Heq : ObjectId.of_str (ObjectId.str o1) = ObjectId.of_str (ObjectId.str o2))
    by (by rewrite Hs).
  rewrite !of_str_str in Heq by done. by injection Heq.
Qed.

Lemma public_ids_distinct_witness :
  ∃ d1' d2' s1 s2,
    to_serializable (Some sample_project) = Some d1'
    ∧ to_serializable (Some (<["_id" := VOid 9%N]> sample_project)) = Some d2'
    ∧ d1' !! "id" = Some (VStr s1)
    ∧ d2' !! "id" = Some (VStr s2)
    ∧ s1 ≠ s2.
Proof.
  apply (public_ids_distinct sample_project (<["_id" := VOid 9%N]> sample_project)
           7%N 9%N).
  - reflexivity.
  - reflexivity.
  - reflexivity.
  - reflexivity.
  - discriminate.
Defined.

(** ** What a handler can raise *)

Lemma plain_ret {A} (a : A) : plain (ret a).
Proof. intros db e db' H. discriminate. Qed.

Lemma plain_raise {A} msg : plain (@raise A (Exception msg)).
Proof. intros db e db' [= <- _]. eauto. Qed.

Lemma plain_bind {A B} (m : M A) (k : A → M B) :
  plain m → (∀ a, plain (k a)) → plain (bind m k).
Proof.
  intros Hm Hk db e db'. unfold bind.
  destruct (m db) as [[e0|a] db0] eqn:Hm0.
  - intros [= <- _]. by eapply Hm.
  - apply Hk.
Qed.

Lemma plain_with_collection {A} c (op : Database → A * Database) :
  plain (with_collection c op).
Proof.
  intros [st|] e db'; unfold with_collection.
  - destruct (fault st); [intros [= <- _]; eauto|].
    destruct (op _). discriminate.
  - intros [= <- _]. eauto.
Qed.

Lemma plain_db_coll coll : plain (db_coll coll).
Proof. intros [st|] e db'; unfold db_coll; [discriminate|]. intros [= <- _]. eauto. Qed.

Lemma plain_ObjectId_new s : plain (ObjectId_new s).
Proof.
  unfold ObjectId_new. destruct (ObjectId.of_str s); [apply plain_ret|apply plain_raise].
Qed.

Lemma plain_get_attr found key : plain (get_attr found key).
Proof. destruct found; [apply plain_ret | apply plain_raise]. Qed.

Ltac plain_tac :=
  repeat first
    [ apply plain_ret | apply plain_raise | apply plain_with_collection
    | apply plain_db_coll | apply plain_ObjectId_new | apply plain_get_attr
    | apply plain_bind | intro ].

(** What the last clause of a handler leaves of its body's outcome. *)
Lemma try_as_500_outcome (m : M value) db :
  (∃ v, (try_except m as_500 db).1 = inr v)
  ∨ ∃ detail, (try_except m as_500 db).1 = inl (HTTPException 500 detail).
Proof.
  unfold try_except, as_500, raise. destruct (m db) as [[e|v] db']; simpl; eauto.
Qed.

Lemma try_reraise_outcome (m : M value) db :
  plain m →
  (∃ v, (try_except m reraise_or_500 db).1 = inr v)
  ∨ ∃ detail, (try_except m reraise_or_500 db).1 = inl (HTTPException 500 detail).
Proof.
  intros Hm. unfold try_except. destruct (m db) as [[e|v] db'] eqn:E; simpl; eauto.
  destruct (Hm _ _ _ E) as [msg ->]. simpl. eauto.
Qed.

Lemma guarded_outcome (pid : string) (m : M value) db :
  plain m →
  let h := try_except
             (if negb (ObjectId.is_valid pid)
              then raise (HTTPException 400 "Invalid project id") else m)
             reraise_or_500 in
  (∃ v, (h db).1 = inr v)
  ∨ (ObjectId.is_valid pid = false
     ∧ (h db).1 = inl (HTTPException 400 "Invalid project id"))
  ∨ ∃ detail, (h db).1 = inl (HTTPException 500 detail).
Proof.
  intros Hm h. unfold h. destruct (ObjectId.is_valid pid) eqn:Hv; simpl negb; cbv iota.
  - destruct (try_reraise_outcome m db Hm) as [?|?]; eauto.
  - right; left. split; [done|]. reflexivity.
Qed.

Lemma test_database_outcome environ db : ∃ v, (test_database environ db).1 = inr v.
Proof.
  destruct (test_database_returns environ db) as (r & db' & _ & ->). eauto.
Qed.

Lemma deliver_error code detail :
  deliver (error_response code detail) = error_response code detail.
Proof. reflexivity. Qed.

(** An [ObjectId] left in a field other than [_id] cannot be encoded: the
    listing is computed, and the framework answers its bare 500. *)
Example object_id_outside_id_is_bare_500 :
  deliver (serve GetPublicProjects (Some linked_database)).1 = internal_server_error.
Proof. vm_compute. reflexivity. Qed.

(** X3: no route function lets anything but an [HTTPException] out.
    Entered with its validated payload, in any state of [db], it returns a
    value, or raises [HTTPException] with status 500, or, for the two
    identifier routes given an identifier [ObjectId.is_valid] rejects, with
    status 400.  What leaves the server is therefore status 200, or
    [{"detail": ...}] under 400 or 500, or the framework's bare 500 when the
    returned value holds something it cannot encode. *)
Theorem no_exception_escapes_a_handler r db :
  ((∃ v, (handler r db).1 = inr v)
   ∨ (∃ pid, (r = DeleteAdminProject pid ∨ ∃ payload, r = PutAdminProject pid payload)
             ∧ ObjectId.is_valid pid = false
             ∧ (handler r db).1 = inl (HTTPException 400 "Invalid project id"))
   ∨ ∃ detail, (handler r db).1 = inl (HTTPException 500 detail))
  ∧ (status (deliver (serve r db).1) = 200%Z
     ∨ deliver (serve r db).1 = error_response 400 "Invalid project id"
     ∨ (∃ detail, deliver (serve r db).1 = error_response 500 detail)
     ∨ deliver (serve r db).1 = internal_server_error).
Proof.
  assert (H : (∃ v, (handler r db).1 = inr v)
              ∨ (∃ pid, (r = DeleteAdminProject pid
                         ∨ ∃ payload, r = PutAdminProject pid payload)
                        ∧ ObjectId.is_valid pid = false
                        ∧ (handler r db).1
                          = inl (HTTPException 400 "Invalid project id"))
              ∨ ∃ detail, (handler r db).1 = inl (HTTPException 500 detail)).
  { assert (Has : ∀ m : M value,
              (∃ v, (try_except m as_500 db).1 = inr v)
              ∨ (∃ pid, (r = DeleteAdminProject pid
                         ∨ ∃ payload, r = PutAdminProject pid payload)
                        ∧ ObjectId.is_valid pid = false
                        ∧ (try_except m as_500 db).1
                          = inl (HTTPException 400 "Invalid project id"))
              ∨ ∃ detail, (try_except m as_500 db).1 = inl (HTTPException 500 detail)).
    { intros m. destruct (try_as_500_outcome m db) as [?|?]; [by left | by right; right]. }
    destruct r as [| | |p|p| |pid p|pid|environ]; simpl handler.
    - left. by eexists.
    - apply Has.
    - apply Has.
    - apply Has.
    - apply Has.
    - apply Has.
    - unfold update_project.
      match goal with |- context [try_except (if _ then _ else ?m) reraise_or_500] =>
        destruct (guarded_outcome pid m db) as [Hv|[[Hv He]|Hd]] end.
      + destruct (decide (update_fields p = ∅)); plain_tac.
      + by left.
      + right; left. exists pid. split; [right; eauto|]. by split.
      + by right; right.
    - unfold delete_project.
      match goal with |- context [try_except (if _ then _ else ?m) reraise_or_500] =>
        destruct (guarded_outcome pid m db) as [Hv|[[Hv He]|Hd]] end.
      + plain_tac.
      + by left.
      + right; left. exists pid. split; [by left|]. by split.
      + by right; right.
    - left. apply test_database_outcome. }
  split; [exact H|].
  unfold serve, endpoint. destruct (handler r db) as [out db']. cbn [fst] in *.
  destruct H as [[v ->]|[(pid & _ & _ & ->)|[detail ->]]]; cbn [respond].
  - unfold deliver. cbn [body]. destruct (jsonable v); [by left|].
    by right; right; right.
  - right; left. apply deliver_error.
  - right; right; left. exists detail. apply deliver_error.
Qed.

(** ** Documents that pass through an update or a removal *)

Lemma omap_doc_oid_set_first oid fields docs :
  fields !! "_id" = None →
  omap doc_oid (set_first oid fields docs) = omap doc_oid docs.
Proof.
  intros Hf. induction docs as [|d rest IH]; [done|]. cbn [set_first].
  destruct (has_oid oid d); cbn [omap list_omap].
  - by rewrite doc_oid_union.
  - fold (omap doc_oid (set_first oid fields rest)). fold (omap doc_oid rest).
    by rewrite IH.
Qed.

Lemma native_set_first oid fields docs :
  fields !! "_id" = None →
  Forall native docs → Forall native (set_first oid fields docs).
Proof.
  intros Hf. induction 1 as [|d rest Hd Hrest IH]; [constructor|]. simpl.
  destruct (has_oid oid d); constructor; try done.
  unfold native. by rewrite doc_oid_union.
Qed.

Lemma length_set_first oid fields docs :
  length (set_first oid fields docs) = length docs.
Proof.
  induction docs as [|d rest IH]; [done|]. simpl.
  destruct (has_oid oid d); simpl; by rewrite ?IH.
Qed.

Lemma first_match_set_first_other oid oid' fields docs :
  fields !! "_id" = None → oid' ≠ oid →
  first_match oid' (set_first oid fields docs) = first_match oid' docs.
Proof.
  intros Hf Hne. induction docs as [|d rest IH]; [done|]. simpl.
  destruct (has_oid oid d) eqn:E; simpl.
  - unfold has_oid at 1. rewrite doc_oid_union by done.
    apply has_oid_doc_oid in E. rewrite E.
    unfold has_oid. rewrite E.
    destruct (N.eqb_spec oid oid'); [congruence|done].
  - by rewrite IH.
Qed.

Lemma remove_first_sublist oid docs : (remove_first oid docs).2 `sublist_of` docs.
Proof.
  induction docs as [|d rest IH]; [done|]. simpl.
  destruct (has_oid oid d).
  - by apply sublist_cons.
  - destruct (remove_first oid rest) as [n rest']. simpl in *. by apply sublist_skip.
Qed.

Lemma omap_sublist {A B} (f : A → option B) (l k : list A) :
  l `sublist_of` k → omap f l `sublist_of` omap f k.
Proof.
  induction 1 as [|x l k _ IH|x l k _ IH]; simpl; [done| |].
  - destruct (f x); [by apply sublist_skip | done].
  - destruct (f x); [by apply sublist_cons | done].
Qed.

Lemma Forall_sublist {A} (P : A → Prop) (l k : list A) :
  l `sublist_of` k → Forall P k → Forall P l.
Proof.
  intros Hs Hk. apply Forall_forall. intros x Hx.
  rewrite Forall_forall in Hk. apply Hk. by eapply elem_of_sublist.
Qed.

Lemma first_match_remove_first_other oid oid' docs :
  oid' ≠ oid →
  first_match oid' (remove_first oid docs).2 = first_match oid' docs.
Proof.
  intros Hne. induction docs as [|d rest IH]; [done|]. simpl.
  destruct (has_oid oid d) eqn:E; simpl.
  - apply has_oid_doc_oid in E. unfold has_oid. rewrite E.
    destruct (N.eqb_spec oid oid'); [congruence|done].
  - destruct (remove_first oid rest) as [n rest']. simpl in *. by rewrite IH.
Qed.

Lemma remove_first_absent oid docs :
  first_match oid docs = None → remove_first oid docs = (0%nat, docs).
Proof.
  induction docs as [|d rest IH]; [done|]. simpl.
  destruct (has_oid oid d); [done|]. intros H. by rewrite IH.
Qed.

Lemma remove_first_appended o docs data :
  first_match o docs = None →
  remove_first o (docs ++ [<["_id" := VOid o]> data]) = (1%nat, docs).
Proof.
  induction docs as [|d rest IH]; simpl.
  - by rewrite has_oid_stored.
  - destruct (has_oid o d); [done|]. intros H. by rewrite IH.
Qed.

Lemma first_match_appended o docs data :
  first_match o docs = None →
  first_match o (docs ++ [<["_id" := VOid o]> data]) = Some (<["_id" := VOid o]> data).
Proof.
  induction docs as [|d rest IH]; simpl.
  - by rewrite has_oid_stored.
  - destruct (has_oid o d); [done|]. auto.
Qed.

(** ** Well-formed collections *)

Lemma wf_docs_nil n : wf_docs n [].
Proof. repeat split; constructor. Qed.

Lemma wf_docs_succ n docs : wf_docs n docs → wf_docs (N.succ n) docs.
Proof.
  intros (H1 & H2 & H3). repeat split; try done.
  eapply Forall_impl; [exact H3|]. simpl. lia.
Qed.

Lemma wf_docs_set_first n oid fields docs :
  fields !! "_id" = None → wf_docs n docs → wf_docs n (set_first oid fields docs).
Proof.
  intros Hf (H1 & H2 & H3). unfold wf_docs, unique_ids.
  rewrite omap_doc_oid_set_first by done.
  split; [by apply native_set_first | done].
Qed.

Lemma wf_docs_remove_first n oid docs :
  wf_docs n docs → wf_docs n (remove_first oid docs).2.
Proof.
  intros (H1 & H2 & H3).
  pose proof (remove_first_sublist oid docs) as Hs.
  split; [|split].
  - by eapply Forall_sublist.
  - eapply sublist_NoDup; [exact H2|]. by apply omap_sublist.
  - eapply Forall_sublist; [|exact H3]. by apply omap_sublist.
Qed.

Lemma wf_docs_fresh n docs : wf_docs n docs → first_match n docs = None.
Proof.
  intros (_ & _ & H3). apply first_match_None. intros Hin.
  rewrite Forall_forall in H3. specialize (H3 _ Hin). simpl in H3. lia.
Qed.

Lemma wf_docs_insert n docs data :
  wf_docs n docs → wf_docs (N.succ n) (docs ++ [<["_id" := VOid n]> data]).
Proof.
  intros Hwf. pose proof (wf_docs_fresh _ _ Hwf) as Hfresh.
  destruct Hwf as (H1 & H2 & H3).
  unfold wf_docs, unique_ids. rewrite omap_app. simpl. rewrite doc_oid_stored.
  split; [|split].
  - apply Forall_app. split; [done|]. constructor; [|constructor].
    exists n. apply doc_oid_stored.
  - apply NoDup_app. split; [done|]. split; [|apply NoDup_singleton].
    intros o Ho Hin. apply list_elem_of_singleton in Hin as ->.
    by apply first_match_None in Hfresh.
  - apply Forall_app. split.
    + eapply Forall_impl; [exact H3|]. simpl. lia.
    + constructor; [lia|constructor].
Qed.

Lemma consistent_set_collection coll docs st :
  consistent st → wf_docs (next_oid st) docs →
  consistent (set_collection coll docs st).
Proof.
  intros Hc Hd coll'. destruct (decide (coll = coll')) as [<-|Hne].
  - by rewrite collection_set_same.
  - rewrite collection_set_other by done. apply Hc.
Qed.

Lemma consistent_bump_oid st : consistent st → consistent (bump_oid st).
Proof. intros Hc coll. apply wf_docs_succ, Hc. Qed.

Lemma consistent_fresh n : consistent (fresh_database n).
Proof. intros coll. apply wf_docs_nil. Qed.

(** ** Invariants through a handler *)

Section Keeps.

Context (I : Db → Prop).

Lemma keeps_ret {A} (a : A) : keeps I (ret a).
Proof. by intros db H. Qed.

Lemma keeps_raise {A} e : keeps I (@raise A e).
Proof. by intros db H. Qed.

Lemma keeps_bind {A B} (m : M A) (k : A → M B) :
  keeps I m → (∀ a, keeps I (k a)) → keeps I (bind m k).
Proof.
  intros Hm Hk db H. unfold bind. specialize (Hm db H).
  destruct (m db) as [[e|a] db']; [done|]. by apply Hk.
Qed.

Lemma keeps_try_except {A} (m : M A) h :
  keeps I m → (∀ e, keeps I (h e)) → keeps I (try_except m h).
Proof.
  intros Hm Hh db H. unfold try_except. specialize (Hm db H).
  destruct (m db) as [[e|a] db']; [|done]. by apply Hh.
Qed.

Lemma keeps_with_collection {A} c (op : Database → A * Database) :
  (∀ st, I (Some st) → I (Some (record_call c st))) →
  (∀ st, I (Some st) → I (Some (op st).2)) →
  keeps I (with_collection c op).
Proof.
  intros Hrec Hop [st|] H; unfold with_collection; [|done].
  destruct (fault st); [by apply Hrec|].
  specialize (Hop _ (Hrec _ H)). by destruct (op (record_call c st)).
Qed.

Lemma keeps_db_coll coll : keeps I (db_coll coll).
Proof. by intros [st|] H. Qed.

Lemma keeps_ObjectId_new s : keeps I (ObjectId_new s).
Proof. unfold ObjectId_new. destruct (ObjectId.of_str s); by intros db H. Qed.

Lemma keeps_get_attr found key : keeps I (get_attr found key).
Proof. destruct found; by intros db H. Qed.

Lemma keeps_as_500 {A} e : keeps I (@as_500 A e).
Proof. apply keeps_raise. Qed.

Lemma keeps_reraise_or_500 {A} e : keeps I (@reraise_or_500 A e).
Proof. destruct e; apply keeps_raise. Qed.

End Keeps.

Ltac keeps_step :=
  first
    [ apply keeps_try_except | apply keeps_bind | apply keeps_ret
    | apply keeps_raise | apply keeps_db_coll | apply keeps_ObjectId_new
    | apply keeps_get_attr | apply keeps_as_500 | apply keeps_reraise_or_500
    | match goal with |- ∀ _, _ => intro end ].

(** ** A healthy database stays healthy *)

Lemma healthy_record_call c st : healthy (Some st) → healthy (Some (record_call c st)).
Proof.
  intros (st0 & [= <-] & Hf & Hc & Hl). exists (record_call c st).
  split; [done|]. split; [exact Hf|]. split; [exact Hc | exact Hl].
Qed.

Lemma keeps_healthy_find_one coll oid : keeps healthy (find_one coll oid).
Proof.
  apply keeps_with_collection; [intros st; apply healthy_record_call | done].
Qed.

Lemma keeps_healthy_get_documents coll limit : keeps healthy (get_documents coll limit).
Proof.
  apply keeps_with_collection; [intros st; apply healthy_record_call | done].
Qed.

Lemma keeps_healthy_list_collection_names : keeps healthy list_collection_names.
Proof.
  apply keeps_with_collection; [intros st; apply healthy_record_call | done].
Qed.

Lemma length_collection_set coll docs st coll' :
  (length docs ≤ length (collection st coll))%nat →
  (length (collection (set_collection coll docs st) coll')
   ≤ length (collection st coll'))%nat.
Proof.
  intros Hl. destruct (decide (coll = coll')) as [<-|Hne].
  - by rewrite collection_set_same.
  - by rewrite collection_set_other.
Qed.

Lemma keeps_healthy_update_one coll oid fields :
  fields !! "_id" = None → keeps healthy (update_one coll oid fields).
Proof.
  intros Hid. apply keeps_with_collection; [intros st; apply healthy_record_call|].
  intros st (st0 & [= <-] & Hf & Hc & Hl). eexists. split; [reflexivity|].
  cbn [snd]. split; [done|]. split.
  - apply consistent_set_collection; [done|]. by apply wf_docs_set_first.
  - etrans; [|exact Hl]. apply length_collection_set. by rewrite length_set_first.
Qed.

Lemma keeps_healthy_delete_one coll oid : keeps healthy (delete_one coll oid).
Proof.
  apply keeps_with_collection; [intros st; apply healthy_record_call|].
  intros st (st0 & [= <-] & Hf & Hc & Hl). eexists. split; [reflexivity|].
  pose proof (remove_first_sublist oid (collection st coll)) as Hs.
  pose proof (wf_docs_remove_first _ oid _ (Hc coll)) as Hw.
  destruct (remove_first oid (collection st coll)) as [n docs]. cbn [snd] in *.
  split; [done|]. split.
  - by apply consistent_set_collection.
  - etrans; [|exact Hl]. apply length_collection_set. by apply sublist_length.
Qed.

Lemma keeps_healthy_delete_many coll : keeps healthy (delete_many coll).
Proof.
  apply keeps_with_collection; [intros st; apply healthy_record_call|].
  intros st (st0 & [= <-] & Hf & Hc & Hl). eexists. split; [reflexivity|].
  cbn [snd]. split; [done|]. split.
  - apply consistent_set_collection; [done | apply wf_docs_nil].
  - etrans; [|exact Hl]. apply length_collection_set. simpl. lia.
Qed.

Lemma consistent_insert coll data st :
  consistent st →
  consistent (bump_oid (set_collection coll
                          (collection st coll ++ [<["_id" := VOid (next_oid st)]> data])
                          st)).
Proof.
  intros Hc coll'. rewrite collection_bump_oid. simpl (next_oid _).
  destruct (decide (coll = coll')) as [<-|Hne].
  - rewrite collection_set_same. apply wf_docs_insert, Hc.
  - rewrite collection_set_other by done. apply wf_docs_succ, Hc.
Qed.

Lemma keeps_healthy_create_document coll data :
  coll ≠ "settings" → keeps healthy (create_document coll data).
Proof.
  intros Hne. apply keeps_with_collection; [intros st; apply healthy_record_call|].
  intros st (st0 & [= <-] & Hf & Hc & Hl). eexists. split; [reflexivity|].
  cbn [snd]. split; [done|]. split.
  - by apply consistent_insert.
  - by rewrite collection_bump_oid, collection_set_other.
Qed.

Lemma keeps_healthy_upsert_settings payload : keeps healthy (upsert_settings payload).
Proof.
  intros db (st & -> & Hf & Hc & Hl).
  rewrite upsert_settings_run by done. cbn [snd].
  eexists. split; [reflexivity|]. split; [done|]. split.
  - intros coll. rewrite collection_record_call, collection_bump_oid.
    simpl (next_oid _). destruct (decide ("settings" = coll)) as [<-|Hne].
    + rewrite collection_set_same.
      apply (wf_docs_insert (next_oid st) [] (Settings.model_dump payload)).
      apply wf_docs_nil.
    + rewrite collection_set_other, collection_record_call by done.
      rewrite collection_set_other, collection_record_call by done.
      apply wf_docs_succ, Hc.
  - by rewrite collection_record_call, collection_bump_oid, collection_set_same.
Qed.

Lemma keeps_healthy_handler r : keeps healthy (handler r).
Proof.
  destruct r as [| | |p|p| |pid p|pid|environ]; simpl handler.
  - apply keeps_ret.
  - unfold get_public_settings. repeat keeps_step.
    + apply keeps_healthy_get_documents.
    + destruct a; apply keeps_ret.
  - unfold list_public_projects. repeat keeps_step. apply keeps_healthy_get_documents.
  - apply keeps_healthy_upsert_settings.
  - unfold create_project. repeat keeps_step.
    + by apply keeps_healthy_create_document.
    + apply keeps_healthy_find_one.
  - unfold list_projects_admin. repeat keeps_step. apply keeps_healthy_get_documents.
  - unfold update_project. apply keeps_try_except; [|intro; apply keeps_reraise_or_500].
    destruct (negb (ObjectId.is_valid pid)); [apply keeps_raise|].
    destruct (decide (update_fields p = ∅)); [apply keeps_ret|].
    repeat keeps_step; try apply keeps_healthy_find_one.
    apply keeps_healthy_update_one.
    rewrite lookup_insert_ne by done. apply update_fields_no_id.
  - unfold delete_project. apply keeps_try_except; [|intro; apply keeps_reraise_or_500].
    destruct (negb (ObjectId.is_valid pid)); [apply keeps_raise|].
    repeat keeps_step. apply keeps_healthy_delete_one.
  - unfold test_database, probe_database. repeat keeps_step.
    intros [st|] H; [|done].
    revert H. apply keeps_try_except; repeat keeps_step.
    apply keeps_healthy_list_collection_names.
Qed.

Lemma serve_snd r db : (serve r db).2 = (handler r db).2.
Proof. unfold serve, endpoint. by destruct (handler r db). Qed.

Lemma serve_all_healthy rs db : healthy db → healthy (serve_all rs db).
Proof.
  revert db. induction rs as [|r rs IH]; intros db H; [done|].
  simpl. apply IH. rewrite serve_snd. by apply keeps_healthy_handler.
Qed.


Lemma healthy_fresh n : healthy (Some (fresh_database n)).
Proof.
  exists (fresh_database n). split; [done|]. split; [done|].
  split; [apply consistent_fresh|]. change (0 ≤ 1)%nat. lia.
Qed.


(** X5: data that went in through the API never shows its native identifier:
    starting from an empty database, after any sequence of requests both
    project listings consist of public documents, and the public settings
    are a public document or the empty object. *)
Theorem served_documents_are_public n rs :
  let db := serve_all rs (Some (fresh_database n)) in
  public_list (body (serve GetPublicProjects db).1)
  ∧ public_list (body (serve GetAdminProjects db).1)
  ∧ (body (serve GetPublicSettings db).1 = VDict ∅
     ∨ public_body (body (serve GetPublicSettings db).1)).
Proof.
  intros db.
  destruct (serve_all_healthy rs _ (healthy_fresh n))
    as (st & Hdb & Hf & Hc & Hl).
  fold db in Hdb. rewrite Hdb. unfold serve, endpoint. simpl handler.
  split; [|split].
  - unfold list_public_projects. run. apply serialize_all_public, Hc.
  - unfold list_projects_admin. run. apply serialize_all_public, Hc.
  - unfold get_public_settings. run.
    destruct (Hc "settings") as (Hn & _ & _).
    destruct Hn as [|d rest Hd _]; cbn [take]; [by left|].
    right. by apply public_body_of_native.
Qed.

(** ** Deletion: what is left alone, and deleting again *)

Lemma delete_project_run pid oid st :
  fault st = None →
  ObjectId.of_str pid = Some oid →
  delete_project pid (Some st)
  = (inr (VDict {["deleted" :=
                    VBool ((remove_first oid (collection st "project")).1 =? 1)%nat]}),
     Some (set_collection "project" (remove_first oid (collection st "project")).2
             (record_call (CallDeleteOne "project" oid) st))).
Proof.
  intros Hf Hoid. unfold delete_project.
  rewrite (is_valid_of_str _ _ Hoid). simpl negb. cbv iota. by run.
Qed.

(** X6: a deletion touches the project collection only, and there only the
    document with the given identifier: every other collection, the
    allocator and the document found under any other identifier are as
    before. *)
Theorem delete_project_leaves_the_rest pid oid st :
  fault st = None →
  ObjectId.of_str pid = Some oid →
  ∃ st',
    (serve (DeleteAdminProject pid) (Some st)).2 = Some st'
    ∧ (∀ coll, coll ≠ "project" → collection st' coll = collection st coll)
    ∧ (∀ oid', oid' ≠ oid →
         first_match oid' (collection st' "project")
         = first_match oid' (collection st "project"))
    ∧ next_oid st' = next_oid st
    ∧ collection st' "project" `sublist_of` collection st "project".
Proof.
  intros Hf Hoid. rewrite serve_snd. simpl handler.
  rewrite (delete_project_run pid oid st) by done. cbn [snd].
  eexists. split; [reflexivity|]. split; [|split; [|split]].
  - intros coll Hne. by rewrite collection_set_other.
  - intros oid' Hne. rewrite collection_set_same.
    by apply first_match_remove_first_other.
  - reflexivity.
  - rewrite collection_set_same. apply remove_first_sublist.
Qed.

Lemma delete_project_leaves_the_rest_witness :
  ∃ st',
    (serve (DeleteAdminProject "000000000000000000000009") (Some sample_database)).2
      = Some st'
    ∧ (∀ coll, coll ≠ "project" → collection st' coll = collection sample_database coll)
    ∧ (∀ oid', oid' ≠ 9%N →
         first_match oid' (collection st' "project")
         = first_match oid' (collection sample_database "project"))
    ∧ next_oid st' = next_oid sample_database
    ∧ collection st' "project" `sublist_of` collection sample_database "project".
Proof.
  apply (delete_project_leaves_the_rest "000000000000000000000009" 9%N sample_database).
  - reflexivity.
  - reflexivity.
Defined.

(** X7: deleting the same identifier a second time answers
    [{"deleted": false}] and changes no document. *)
Theorem delete_project_twice pid oid st :
  fault st = None →
  ObjectId.of_str pid = Some oid →
  unique_ids (collection st "project") →
  ∃ st1 st2,
    (serve (DeleteAdminProject pid) (Some st)).2 = Some st1
    ∧ serve (DeleteAdminProject pid) (Some st1)
      = (ok_response (VDict {["deleted" := VBool false]}), Some st2)
    ∧ collections st2 = collections st1.
Proof.
  intros Hf Hoid Hu. rewrite serve_snd. simpl handler.
  rewrite (delete_project_run pid oid st) by done. cbn [snd].
  eexists _, _. split; [reflexivity|].
  unfold serve, endpoint. simpl handler.
  rewrite (delete_project_run pid oid) by done.
  rewrite collection_set_same.
  rewrite (remove_first_absent oid) by by apply remove_first_gone.
  split; [reflexivity|].
  simpl. by rewrite insert_insert_eq.
Qed.

Lemma delete_project_twice_witness :
  ∃ st1 st2,
    (serve (DeleteAdminProject "000000000000000000000007") (Some sample_database)).2
      = Some st1
    ∧ serve (DeleteAdminProject "000000000000000000000007") (Some st1)
      = (ok_response (VDict {["deleted" := VBool false]}), Some st2)
    ∧ collections st2 = collections st1.
Proof.
  apply (delete_project_twice "000000000000000000000007" 7%N sample_database).
  - reflexivity.
  - reflexivity.
  - apply NoDup_singleton.
Defined.

(** ** Partial update: what is left alone, and updating again *)

(** X8: a successful partial update keeps the number of projects, the
    identifier of the target, every other collection, the allocator and the
    document found under any other identifier. *)
Theorem update_project_leaves_the_rest pid oid payload st doc :
  fault st = None →
  ObjectId.of_str pid = Some oid →
  update_fields payload ≠ ∅ →
  first_match oid (collection st "project") = Some doc →
  ∃ st' doc',
    (serve (PutAdminProject pid payload) (Some st)).2 = Some st'
    ∧ first_match oid (collection st' "project") = Some doc'
    ∧ doc_oid doc' = Some oid
    ∧ length (collection st' "project") = length (collection st "project")
    ∧ (∀ coll, coll ≠ "project" → collection st' coll = collection st coll)
    ∧ (∀ oid', oid' ≠ oid →
         first_match oid' (collection st' "project")
         = first_match oid' (collection st "project"))
    ∧ next_oid st' = next_oid st.
Proof.
  intros Hf Hoid Hne Hdoc. rewrite serve_snd. simpl handler.
  rewrite (update_project_found pid oid payload st doc) by done. cbn [snd].
  pose proof (applied_fields_no_id payload doc) as Hid.
  eexists _, _. split; [reflexivity|].
  rewrite !collection_record_call, !collection_set_same.
  split; [by apply first_match_set_first|]. split; [|split; [|split; [|split]]].
  - rewrite doc_oid_union by done.
    by apply has_oid_doc_oid, (first_match_has_oid _ _ _ Hdoc).
  - apply length_set_first.
  - intros coll Hc. by rewrite collection_record_call, collection_set_other.
  - intros oid' Ho. by apply first_match_set_first_other.
  - reflexivity.
Qed.

Lemma update_project_leaves_the_rest_witness :
  ∃ st' doc',
    (serve (PutAdminProject "000000000000000000000007" sample_update)
       (Some sample_database)).2 = Some st'
    ∧ first_match 7%N (collection st' "project") = Some doc'
    ∧ doc_oid doc' = Some 7%N
    ∧ length (collection st' "project") = length (collection sample_database "project")
    ∧ (∀ coll, coll ≠ "project" → collection st' coll = collection sample_database coll)
    ∧ (∀ oid', oid' ≠ 7%N →
         first_match oid' (collection st' "project")
         = first_match oid' (collection sample_database "project"))
    ∧ next_oid st' = next_oid sample_database.
Proof.
  apply (update_project_leaves_the_rest "000000000000000000000007" 7%N
           sample_update sample_database sample_project).
  - reflexivity.
  - reflexivity.
  - exact sample_update_supplies_fields.
  - reflexivity.
Defined.

Lemma set_first_twice oid fields docs :
  fields !! "_id" = None →
  set_first oid fields (set_first oid fields docs) = set_first oid fields docs.
Proof.
  intros Hid. induction docs as [|d rest IH]; [done|]. simpl.
  destruct (has_oid oid d) eqn:E; simpl.
  - unfold has_oid at 1. rewrite doc_oid_union by done. fold (has_oid oid d).
    rewrite E. by rewrite (assoc_L (∪)), (idemp_L (∪) fields).
  - by rewrite E, IH.
Qed.

(** X9: sending the same partial update again changes no document and is
    answered like the first time; in particular [updated_at] is carried over
    again, not advanced. *)
Theorem update_project_twice pid oid payload st doc :
  fault st = None →
  ObjectId.of_str pid = Some oid →
  update_fields payload ≠ ∅ →
  first_match oid (collection st "project") = Some doc →
  ∃ resp st1 st2,
    serve (PutAdminProject pid payload) (Some st) = (resp, Some st1)
    ∧ serve (PutAdminProject pid payload) (Some st1) = (resp, Some st2)
    ∧ status resp = 200%Z
    ∧ collections st2 = collections st1.
Proof.
  intros Hf Hoid Hne Hdoc. unfold serve, endpoint. simpl handler.
  rewrite (update_project_found pid oid payload st doc) by done.
  pose proof (applied_fields_no_id payload doc) as Hid.
  set (data := applied_fields payload doc) in *.
  set (st1 := record_call _ (set_collection _ _ _)).
  assert (Hdoc1 : first_match oid (collection st1 "project") = Some (data ∪ doc)).
  { unfold st1. rewrite collection_record_call, collection_set_same.
    by apply first_match_set_first. }
  assert (Hdata : applied_fields payload (data ∪ doc) = data).
  { unfold applied_fields at 1. unfold data at 1, applied_fields at 1.
    rewrite (lookup_union_Some_l _ _ _ (default VNull (doc !! "updated_at")))
      by apply lookup_insert_eq.
    done. }
  eexists _, st1, _. split; [reflexivity|].
  rewrite (update_project_found pid oid payload st1 (data ∪ doc)) by done.
  rewrite Hdata. rewrite (assoc_L (∪)), (idemp_L (∪) data).
  split; [reflexivity|]. split; [reflexivity|].
  simpl. rewrite insert_insert_eq. f_equal.
  unfold st1. rewrite !collection_record_call, collection_set_same.
  by apply set_first_twice.
Qed.

Lemma update_project_twice_witness :
  ∃ resp st1 st2,
    serve (PutAdminProject "000000000000000000000007" sample_update)
      (Some sample_database) = (resp, Some st1)
    ∧ serve (PutAdminProject "000000000000000000000007" sample_update) (Some st1)
      = (resp, Some st2)
    ∧ status resp = 200%Z
    ∧ collections st2 = collections st1.
Proof.
  apply (update_project_twice "000000000000000000000007" 7%N
           sample_update sample_database sample_project).
  - reflexivity.
  - reflexivity.
  - exact sample_update_supplies_fields.
  - reflexivity.
Defined.

(** ** Creating a project, and addressing it by the identifier sent *)

Lemma create_project_run payload st :
  fault st = None →
  wf_docs (next_oid st) (collection st "project") →
  create_project payload (Some st)
  = (inr (VDict (<["id" := VStr (ObjectId.str (next_oid st))]>
                   (Project.model_dump payload))),
     Some (record_call (CallFindOne "project" (next_oid st))
             (bump_oid
                (set_collection "project"
                   (collection st "project"
                    ++ [<["_id" := VOid (next_oid st)]> (Project.model_dump payload)])
                   (record_call
                      (CallInsertOne "project" (Project.model_dump payload)) st))))).
Proof.
  intros Hf Hwf. unfold create_project. run.
  rewrite collection_bump_oid, collection_set_same. simpl (next_oid _).
  rewrite first_match_appended by by apply wf_docs_fresh.
  by rewrite to_serializable_stored by apply project_dump_no_id.
Qed.

(** X11: on a reachable database whose projects have identifiers handed out by
    the store, [POST /api/admin/projects] answers with the payload's fields
    plus the string [id] of the new document, and appends that document;
    the public listing then ends with the very object that was answered. *)
Theorem created_project_is_listed payload st :
  fault st = None →
  wf_docs (next_oid st) (collection st "project") →
  let public :=
    <["id" := VStr (ObjectId.str (next_oid st))]> (Project.model_dump payload) in
  ∃ st1 listed,
    serve (PostAdminProjects payload) (Some st)
      = (ok_response (VDict public), Some st1)
    ∧ collection st1 "project"
      = (collection st "project"
         ++ [<["_id" := VOid (next_oid st)]> (Project.model_dump payload)])%list
    ∧ body (serve GetPublicProjects (Some st1)).1 = VList (listed ++ [VDict public])
    ∧ length listed = length (collection st "project").
Proof.
  intros Hf Hwf public. unfold serve, endpoint. simpl handler.
  rewrite create_project_run by done.
  eexists _, _. split; [reflexivity|].
  rewrite collection_record_call, collection_bump_oid, collection_set_same.
  split; [reflexivity|].
  unfold list_public_projects. run.
  rewrite collection_record_call, collection_bump_oid, collection_set_same.
  cbn [fst respond body]. unfold serialize_all. rewrite fmap_app. cbn [fmap list_fmap].
  rewrite to_serializable_stored by apply project_dump_no_id.
  split; [reflexivity|]. by rewrite length_fmap.
Qed.

Lemma sample_database_wf : wf_docs (next_oid sample_database) (collection sample_database "project").
Proof.
  split; [|split].
  - constructor; [|constructor]. exists 7%N. reflexivity.
  - apply NoDup_singleton.
  - constructor; [reflexivity|constructor].
Defined.

Lemma created_project_is_listed_witness :
  let public :=
    <["id" := VStr (ObjectId.str (next_oid sample_database))]>
      (Project.model_dump sample_new_project) in
  ∃ st1 listed,
    serve (PostAdminProjects sample_new_project) (Some sample_database)
      = (ok_response (VDict public), Some st1)
    ∧ collection st1 "project"
      = (collection sample_database "project"
         ++ [<["_id" := VOid (next_oid sample_database)]>
               (Project.model_dump sample_new_project)])%list
    ∧ body (serve GetPublicProjects (Some st1)).1 = VList (listed ++ [VDict public])
    ∧ length listed = length (collection sample_database "project").
Proof.
  apply (created_project_is_listed sample_new_project sample_database).
  - reflexivity.
  - exact sample_database_wf.
Defined.

(** X12: the [id] answered by [POST /api/admin/projects] is accepted by
    [DELETE /api/admin/projects/{id}] and names the document just created:
    deleting it answers [{"deleted": true}] and puts every collection back
    to what it held before the creation. *)
Theorem create_then_delete_restores payload st :
  fault st = None →
  wf_docs (next_oid st) (collection st "project") →
  (next_oid st < 2 ^ 96)%N →
  ∃ st1 st2,
    (serve (PostAdminProjects payload) (Some st)).2 = Some st1
    ∧ serve (DeleteAdminProject (ObjectId.str (next_oid st))) (Some st1)
      = (ok_response (VDict {["deleted" := VBool true]}), Some st2)
    ∧ ∀ coll, collection st2 coll = collection st coll.
Proof.
  intros Hf Hwf Hbound. unfold serve, endpoint. simpl handler.
  rewrite create_project_run by done. cbn [snd].
  eexists _, _. split; [reflexivity|].
  rewrite (delete_project_run _ (next_oid st)) by (done || by apply of_str_str).
  rewrite collection_record_call, collection_bump_oid, collection_set_same.
  rewrite remove_first_appended by by apply wf_docs_fresh.
  split; [reflexivity|].
  intros coll. destruct (decide ("project" = coll)) as [<-|Hne].
  - by rewrite collection_set_same.
  - rewrite collection_set_other by done.
    rewrite !collection_record_call, collection_bump_oid.
    by rewrite collection_set_other.
Qed.

Lemma create_then_delete_restores_witness :
  ∃ st1 st2,
    (serve (PostAdminProjects sample_new_project) (Some sample_database)).2 = Some st1
    ∧ serve (DeleteAdminProject (ObjectId.str (next_oid sample_database))) (Some st1)
      = (ok_response (VDict {["deleted" := VBool true]}), Some st2)
    ∧ ∀ coll, collection st2 coll = collection sample_database coll.
Proof.
  apply (create_then_delete_restores sample_new_project sample_database).
  - reflexivity.
  - exact sample_database_wf.
  - reflexivity.
Defined.

(** ** Requests that only read *)

Lemma same_data_record_call st0 c st :
  same_data st0 (Some st) → same_data st0 (Some (record_call c st)).
Proof.
  intros (st1 & [= <-] & H1 & H2 & H3 & H4). exists (record_call c st).
  split; [done|]. split; [exact H1|]. split; [exact H2|]. split; [exact H3 | exact H4].
Qed.

Lemma keeps_same_data_get_documents st0 coll limit :
  keeps (same_data st0) (get_documents coll limit).
Proof.
  apply keeps_with_collection; [intros st; apply same_data_record_call | done].
Qed.

Lemma keeps_same_data_list_collection_names st0 :
  keeps (same_data st0) list_collection_names.
Proof.
  apply keeps_with_collection; [intros st; apply same_data_record_call | done].
Qed.

(** X14: the [GET] routes change no document: after any of them the
    collections, the allocator and the server are what they were (only the
    record of calls grows). *)
Theorem reads_change_no_document r st :
  is_read r = true → same_data st (serve r (Some st)).2.
Proof.
  intros Hr. rewrite serve_snd.
  assert (H0 : same_data st (Some st)) by (by exists st).
  revert H0. generalize (Some st). change (keeps (same_data st) (handler r)).
  destruct r as [| | |p|p| |pid p|pid|environ]; try discriminate; simpl handler.
  - apply keeps_ret.
  - unfold get_public_settings. repeat keeps_step.
    + apply keeps_same_data_get_documents.
    + destruct a; apply keeps_ret.
  - unfold list_public_projects. repeat keeps_step.
    apply keeps_same_data_get_documents.
  - unfold list_projects_admin. repeat keeps_step.
    apply keeps_same_data_get_documents.
  - unfold test_database, probe_database. repeat keeps_step.
    intros [st'|] H; [|done].
    revert H. apply keeps_try_except; repeat keeps_step.
    apply keeps_same_data_list_collection_names.
Qed.

Lemma reads_change_no_document_witness :
  same_data sample_database (serve GetPublicProjects (Some sample_database)).2.
Proof.
  apply (reads_change_no_document GetPublicProjects sample_database).
  reflexivity.
Defined.

(** ** The diagnostic endpoint, further *)

(** X15: what [GET /test] answers depends on the collections of the database
    and on whether the server can be reached, not on the database's name:
    the name written into the response on line 158 is overwritten on line
    173.  On a reachable database the body lists at most ten collection
    names. *)
Theorem test_database_hides_the_name environ st st' :
  collections st = collections st' →
  fault st = fault st' →
  (serve (GetTest environ) (Some st)).1 = (serve (GetTest environ) (Some st')).1
  ∧ (fault st = None →
     ∃ r names,
       body (serve (GetTest environ) (Some st)).1 = VDict r
       ∧ r !! "collections" = Some (str_list names)
       ∧ (length names ≤ 10)%nat
       ∧ r !! "connection_status" = Some (VStr "Connected")).
Proof.
  intros Hc Hf. unfold serve, endpoint. simpl handler.
  unfold test_database, probe_database, try_except, list_collection_names,
    with_collection, bind, ret.
  rewrite <- Hf. destruct (fault st) as [msg|]; cbn [fst snd respond body].
  - split; [|discriminate]. reflexivity.
  - cbn [collections record_call]. rewrite <- Hc. split.
    + reflexivity.
    + intros _. eexists _, _. split; [reflexivity|].
      rewrite !(lookup_insert_ne _ _ "collections") by done.
      rewrite lookup_insert_eq. split; [reflexivity|].
      split; [rewrite length_take; lia|].
      rewrite !(lookup_insert_ne _ _ "connection_status") by done.
      by rewrite lookup_insert_eq.
Qed.

Lemma test_database_hides_the_name_witness :
  (serve (GetTest ∅) (Some sample_database)).1
  = (serve (GetTest ∅)
       (Some {| name := "other"; fault := fault sample_database;
                collections := collections sample_database;
                next_oid := 0%N; calls := [] |})).1
  ∧ (fault sample_database = None →
     ∃ r names,
       body (serve (GetTest ∅) (Some sample_database)).1 = VDict r
       ∧ r !! "collections" = Some (str_list names)
       ∧ (length names ≤ 10)%nat
       ∧ r !! "connection_status" = Some (VStr "Connected")).
Proof.
  apply (test_database_hides_the_name ∅ sample_database
           {| name := "other"; fault := fault sample_database;
              collections := collections sample_database;
              next_oid := 0%N; calls := [] |}).
  - reflexivity.
  - reflexivity.
Defined.

(** ** Without a working store *)

(** X16: with no database configured ([db] is [None]) the three handlers that
    use [db] directly answer 500: the settings upsert with its own message,
    the partial update (once there is a field to apply) and the deletion with
    the interpreter's message for subscripting [None]. *)
Theorem unconfigured_database_is_answered_500 pid payload settings :
  ObjectId.is_valid pid = true →
  update_fields payload ≠ ∅ →
  serve (PostAdminSettings settings) None
    = (error_response 500 "Database not available", None)
  ∧ serve (PutAdminProject pid payload) None
    = (error_response 500 "'NoneType' object is not subscriptable", None)
  ∧ serve (DeleteAdminProject pid) None
    = (error_response 500 "'NoneType' object is not subscriptable", None).
Proof.
  intros Hv Hne. unfold serve, endpoint. simpl handler.
  split; [reflexivity|].
  unfold update_project, delete_project, try_except. rewrite Hv. simpl negb. cbv iota.
  rewrite decide_False by done. split; reflexivity.
Qed.

Lemma unconfigured_database_is_answered_500_witness :
  serve (PostAdminSettings sample_settings) None
    = (error_response 500 "Database not available", None)
  ∧ serve (PutAdminProject "000000000000000000000007" sample_update) None
    = (error_response 500 "'NoneType' object is not subscriptable", None)
  ∧ serve (DeleteAdminProject "000000000000000000000007") None
    = (error_response 500 "'NoneType' object is not subscriptable", None).
Proof.
  apply (unconfigured_database_is_answered_500
           "000000000000000000000007" sample_update sample_settings).
  - reflexivity.
  - exact sample_update_supplies_fields.
Defined.

(** X17: when the store raises on the first call a handler makes, the handler
    answers 500 with the store's message as detail, and no document has
    changed. *)
Theorem store_failure_is_reported pid payload settings st msg :
  fault st = Some msg →
  ObjectId.is_valid pid = true →
  update_fields payload ≠ ∅ →
  ∀ r, r ∈ [PostAdminSettings settings; PutAdminProject pid payload;
            DeleteAdminProject pid] →
  ∃ st', serve r (Some st) = (error_response 500 msg, Some st')
         ∧ collections st' = collections st.
Proof.
  intros Hf Hv Hne r Hr.
  destruct (proj1 (is_valid_true pid) Hv) as [oid Hoid].
  unfold serve, endpoint.
  rewrite !elem_of_cons, elem_of_nil in Hr.
  destruct Hr as [->|[->|[->|[]]]]; simpl handler.
  - unfold upsert_settings, try_except, bind, db_coll, delete_many, with_collection.
    rewrite Hf. eexists. split; reflexivity.
  - unfold update_project, ObjectId_new, try_except, bind, db_coll, find_one,
      with_collection, ret.
    rewrite Hv, Hoid. change (negb true) with false. cbv beta iota.
    rewrite decide_False by done. cbv beta iota.
    rewrite Hf. eexists. split; reflexivity.
  - unfold delete_project, ObjectId_new, try_except, bind, db_coll, delete_one,
      with_collection, ret.
    rewrite Hv, Hoid. change (negb true) with false. cbv beta iota.
    rewrite Hf. eexists. split; reflexivity.
Qed.

Lemma store_failure_is_reported_witness :
  ∃ st', serve (DeleteAdminProject "000000000000000000000007")
           (Some {| name := "portfolio"; fault := Some "connection refused";
                    collections := collections sample_database;
                    next_oid := 8%N; calls := [] |})
         = (error_response 500 "connection refused", Some st')
         ∧ collections st' = collections sample_database.
Proof.
  apply (store_failure_is_reported "000000000000000000000007" sample_update
           sample_settings
           {| name := "portfolio"; fault := Some "connection refused";
              collections := collections sample_database;
              next_oid := 8%N; calls := [] |} "connection refused").
  - reflexivity.
  - reflexivity.
  - exact sample_update_supplies_fields.
  - apply elem_of_cons. right. apply elem_of_cons. right.
    apply elem_of_cons. left. reflexivity.
Defined.

(** ** Request bodies *)

Ltac dumped_lookup :=
  repeat match goal with b := _ |- _ => subst b end;
  unfold Settings.model_dump, Project.model_dump;
  rewrite ?lookup_insert_ne by done; apply lookup_insert_eq.

Lemma as_str_list_str_list l : as_str_list (str_list l) = Some l.
Proof.
  unfold as_str_list, str_list. apply mapM_Some.
  induction l as [|s l IH]; constructor; done.
Qed.

Lemma optional_url_dumped http_url (b : document) key o :
  b !! key = Some (opt_str o) →
  (∀ u, o = Some u → http_url u = true) →
  optional_url http_url b key = Some o.
Proof.
  intros Hb Hu. unfold optional_url. rewrite Hb.
  destruct o as [u|]; simpl; [|done]. by rewrite (Hu u eq_refl).
Qed.

Lemma optional_str_dumped (b : document) key o :
  b !! key = Some (opt_str o) → optional_str b key = Some o.
Proof. intros Hb. unfold optional_str. rewrite Hb. by destruct o. Qed.

Lemma required_str_dumped (b : document) key s :
  b !! key = Some (VStr s) → required_str b key = Some s.
Proof. intros Hb. unfold required_str. by rewrite Hb. Qed.

(** X18: what a public read sends can be posted back: the dumped fields of a
    payload, with or without the added [id], pass validation against the
    payload's model and validate to the same payload, so the [POST] handler
    is entered with it. *)
Theorem dumped_payload_validates http_url validation_errors settings project extra :
  (∀ u, Settings.avatar_url settings = Some u → http_url u = true) →
  (∀ u, Project.image_url project = Some u → http_url u = true) →
  (∀ u, Project.live_url project = Some u → http_url u = true) →
  (∀ u, Project.repo_url project = Some u → http_url u = true) →
  post_admin_settings http_url validation_errors
    (VDict (<["id" := extra]> (Settings.model_dump settings)))
  = endpoint (upsert_settings settings)
  ∧ post_admin_projects http_url validation_errors
      (VDict (<["id" := extra]> (Project.model_dump project)))
    = endpoint (create_project project).
Proof.
  intros Ha Hi Hl Hr. unfold post_admin_settings, post_admin_projects, with_body.
  assert (validate_settings http_url
            (VDict (<["id" := extra]> (Settings.model_dump settings)))
          = Some settings) as ->.
  { set (b := <["id" := extra]> (Settings.model_dump settings)).
    assert (H1 : required_str b "name" = Some (Settings.name settings))
      by (apply required_str_dumped; dumped_lookup).
    assert (H2 : required_str b "role" = Some (Settings.role settings))
      by (apply required_str_dumped; dumped_lookup).
    assert (H3 : required_str b "headline" = Some (Settings.headline settings))
      by (apply required_str_dumped; dumped_lookup).
    assert (H4 : required_str b "about" = Some (Settings.about settings))
      by (apply required_str_dumped; dumped_lookup).
    assert (H5 : optional_str b "location" = Some (Settings.location settings))
      by (apply optional_str_dumped; dumped_lookup).
    assert (H6 : optional_url http_url b "avatar_url"
                 = Some (Settings.avatar_url settings))
      by (apply optional_url_dumped; [dumped_lookup | exact Ha]).
    assert (H7 : optional_str b "email" = Some (Settings.email settings))
      by (apply optional_str_dumped; dumped_lookup).
    assert (H8 : optional_dict b "socials" = Some (Settings.socials settings)).
    { unfold optional_dict.
      assert (b !! "socials"
              = Some (from_option VDict VNull (Settings.socials settings))) as ->
        by dumped_lookup.
      by destruct (Settings.socials settings). }
    clearbody b. unfold validate_settings.
    rewrite H1, H2, H3, H4, H5, H6, H7, H8. simpl. by destruct settings. }
  assert (validate_project http_url
            (VDict (<["id" := extra]> (Project.model_dump project)))
          = Some project) as ->; [|done].
  set (b := <["id" := extra]> (Project.model_dump project)).
  assert (H1 : required_str b "title" = Some (Project.title project))
    by (apply required_str_dumped; dumped_lookup).
  assert (H2 : required_str b "description" = Some (Project.description project))
    by (apply required_str_dumped; dumped_lookup).
  assert (H3 : b !! "tags" = Some (str_list (Project.tags project)))
    by dumped_lookup.
  assert (H4 : optional_url http_url b "image_url" = Some (Project.image_url project))
    by (apply optional_url_dumped; [dumped_lookup | exact Hi]).
  assert (H5 : optional_url http_url b "live_url" = Some (Project.live_url project))
    by (apply optional_url_dumped; [dumped_lookup | exact Hl]).
  assert (H6 : optional_url http_url b "repo_url" = Some (Project.repo_url project))
    by (apply optional_url_dumped; [dumped_lookup | exact Hr]).
  clearbody b. unfold validate_project.
  rewrite H1, H2, H3, H4, H5, H6, as_str_list_str_list. simpl. by destruct project.
Qed.

Lemma dumped_payload_validates_witness :
  post_admin_settings (λ _, true) (λ _, VList [])
    (VDict (<["id" := VStr "000000000000000000000008"]>
              (Settings.model_dump sample_settings)))
  = endpoint (upsert_settings sample_settings)
  ∧ post_admin_projects (λ _, true) (λ _, VList [])
      (VDict (<["id" := VStr "000000000000000000000008"]>
                (Project.model_dump sample_new_project)))
    = endpoint (create_project sample_new_project).
Proof.
  apply (dumped_payload_validates (λ _, true) (λ _, VList [])
           sample_settings sample_new_project (VStr "000000000000000000000008"));
    reflexivity.
Defined.

(** X19: [ProjectUpdate] declares its URL fields as plain strings where
    [Project] declares them as [HttpUrl]: a string that is not URL-shaped is
    rejected as [image_url] of a new project, yet accepted as [image_url] of
    a partial update, which stores it. *)
Theorem update_accepts_what_create_rejects
    http_url validation_errors s pid oid st doc (b : document) :
  http_url s = false →
  b !! "image_url" = Some (VStr s) →
  fault st = None →
  ObjectId.of_str pid = Some oid →
  first_match oid (collection st "project") = Some doc →
  status (post_admin_projects http_url validation_errors (VDict b) (Some st)).1
    = 422%Z
  ∧ ∃ resp st' doc',
      put_admin_projects validation_errors pid
        (VDict {["image_url" := VStr s]}) (Some st) = (resp, Some st')
      ∧ status resp = 200%Z
      ∧ first_match oid (collection st' "project") = Some doc'
      ∧ doc' !! "image_url" = Some (VStr s).
Proof.
  intros Hs Hb Hf Hoid Hdoc. split.
  - unfold post_admin_projects, with_body.
    assert (validate_project http_url (VDict b) = None) as ->; [|done].
    assert (Hurl : optional_url http_url b "image_url" = None).
    { unfold optional_url. by rewrite Hb, Hs. }
    unfold validate_project. rewrite Hurl.
    destruct (required_str b "title"); [|done].
    destruct (required_str b "description"); [|done].
    by destruct (match b !! "tags" with
                 | Some v => as_str_list v
                 | None => Some []
                 end).
  - unfold put_admin_projects, with_body.
    set (payload := {| ProjectUpdate.title := None; ProjectUpdate.description := None;
                       ProjectUpdate.tags := None; ProjectUpdate.image_url := Some s;
                       ProjectUpdate.live_url := None;
                       ProjectUpdate.repo_url := None |}).
    assert (validate_project_update (VDict {["image_url" := VStr s]}) = Some payload)
      as -> by reflexivity.
    assert (Hdata : update_fields payload !! "image_url" = Some (VStr s)).
    { apply update_fields_lookup. split; [|done].
      unfold ProjectUpdate.model_dump.
      rewrite !lookup_insert_ne by done. apply lookup_insert_eq. }
    assert (Hne : update_fields payload ≠ ∅).
    { intros He. rewrite He, lookup_empty in Hdata. discriminate Hdata. }
    clearbody payload. unfold endpoint.
    rewrite (update_project_found pid oid payload st doc) by assumption.
    eexists _, _, _. split; [reflexivity|]. split; [reflexivity|].
    rewrite collection_record_call, collection_set_same.
    split; [apply first_match_set_first; [apply applied_fields_no_id | done]|].
    apply lookup_union_Some_l. unfold applied_fields.
    by rewrite lookup_insert_ne.
Qed.

Lemma update_accepts_what_create_rejects_witness :
  status (post_admin_projects (λ _, false) (λ _, VList [])
            (VDict {["image_url" := VStr "cover.png"]}) (Some sample_database)).1
    = 422%Z
  ∧ ∃ resp st' doc',
      put_admin_projects (λ _, VList []) "000000000000000000000007"
        (VDict {["image_url" := VStr "cover.png"]}) (Some sample_database)
      = (resp, Some st')
      ∧ status resp = 200%Z
      ∧ first_match 7%N (collection st' "project") = Some doc'
      ∧ doc' !! "image_url" = Some (VStr "cover.png").
Proof.
  apply (update_accepts_what_create_rejects (λ _, false) (λ _, VList [])
           "cover.png" "000000000000000000000007" 7%N sample_database
           sample_project {["image_url" := VStr "cover.png"]}).
  - reflexivity.
  - reflexivity.
  - reflexivity.
  - reflexivity.
  - reflexivity.
Defined.

(** ** What the two [POST] handlers leave alone *)

(** X13: the settings upsert changes the settings collection only, and the
    creation of a project changes the project collection only, where it
    keeps the documents already there, in order, ahead of the new one. *)
Theorem posts_touch_one_collection settings project st :
  fault st = None →
  ∃ st1 st2,
    (serve (PostAdminSettings settings) (Some st)).2 = Some st1
    ∧ (serve (PostAdminProjects project) (Some st)).2 = Some st2
    ∧ (∀ coll, coll ≠ "settings" → collection st1 coll = collection st coll)
    ∧ (∀ coll, coll ≠ "project" → collection st2 coll = collection st coll)
    ∧ collection st "project" `prefix_of` collection st2 "project"
    ∧ length (collection st2 "project") = S (length (collection st "project")).
Proof.
  intros Hf. rewrite !serve_snd. simpl handler.
  rewrite upsert_settings_run by done. cbn [snd].
  unfold create_project. run.
  match goal with |- context [to_serializable ?d] => generalize (to_serializable d) end.
  intros o. cbn [snd].
  eexists _, _. split; [reflexivity|]. split; [reflexivity|].
  split; [|split; [|split]].
  - intros coll Hne. rewrite collection_record_call, collection_bump_oid.
    rewrite collection_set_other, collection_record_call by done.
    by rewrite collection_set_other, collection_record_call.
  - intros coll Hne. rewrite collection_record_call, collection_bump_oid.
    by rewrite collection_set_other, collection_record_call.
  - rewrite collection_record_call, collection_bump_oid, collection_set_same.
    by apply prefix_app_r.
  - rewrite collection_record_call, collection_bump_oid, collection_set_same.
    rewrite length_app. simpl. lia.
Qed.

Lemma posts_touch_one_collection_witness :
  ∃ st1 st2,
    (serve (PostAdminSettings sample_settings) (Some sample_database)).2 = Some st1
    ∧ (serve (PostAdminProjects sample_new_project) (Some sample_database)).2 = Some st2
    ∧ (∀ coll, coll ≠ "settings" → collection st1 coll = collection sample_database coll)
    ∧ (∀ coll, coll ≠ "project" → collection st2 coll = collection sample_database coll)
    ∧ collection sample_database "project" `prefix_of` collection st2 "project"
    ∧ length (collection st2 "project")
      = S (length (collection sample_database "project")).
Proof.
  apply (posts_touch_one_collection sample_settings sample_new_project sample_database).
  reflexivity.
Defined.

(** X10: what a successful [PUT] answers is what the listings show for that
    project afterwards. *)
Theorem update_answer_is_listed pid oid payload st doc :
  fault st = None →
  ObjectId.of_str pid = Some oid →
  update_fields payload ≠ ∅ →
  first_match oid (collection st "project") = Some doc →
  ∃ resp st' listed,
    serve (PutAdminProject pid payload) (Some st) = (resp, Some st')
    ∧ status resp = 200%Z
    ∧ body (serve GetPublicProjects (Some st')).1 = VList listed
    ∧ body resp ∈ listed
    ∧ length listed = length (collection st "project").
Proof.
  intros Hf Hoid Hne Hdoc. unfold serve, endpoint. simpl handler.
  rewrite (update_project_found pid oid payload st doc) by done.
  eexists _, _, _. split; [reflexivity|]. split; [reflexivity|].
  unfold list_public_projects. run. cbn [fst respond body].
  rewrite !collection_record_call, collection_set_same.
  split; [reflexivity|]. split.
  - unfold serialize_all. apply list_elem_of_fmap.
    exists (applied_fields payload doc ∪ doc). split; [done|].
    eapply first_match_elem_of, first_match_set_first; [|done].
    apply applied_fields_no_id.
  - by rewrite length_fmap, length_set_first.
Qed.

Lemma update_answer_is_listed_witness :
  ∃ resp st' listed,
    serve (PutAdminProject "000000000000000000000007" sample_update)
      (Some sample_database) = (resp, Some st')
    ∧ status resp = 200%Z
    ∧ body (serve GetPublicProjects (Some st')).1 = VList listed
    ∧ body resp ∈ listed
    ∧ length listed = length (collection sample_database "project").
Proof.
  apply (update_answer_is_listed "000000000000000000000007" 7%N
           sample_update sample_database sample_project).
  - reflexivity.
  - reflexivity.
  - exact sample_update_supplies_fields.
  - reflexivity.
Defined.
